(** * PacketHandler: a shallow embedding of [lmchat/core/packethandler.py]

    The development follows the Python module top-down: enums, the
    [ConsciousnessPacket] class, the [PacketHandler] class.  Python objects
    that the code shares and mutates in place (the [metadata] dictionaries)
    live in an explicit heap, so that two packets built from the same
    dictionary see each other's writes, exactly as in Python.  Functions of
    the Python standard library ([json.dumps], [hashlib.sha256], ...) and the
    readings of the wall clock are inputs of the model.

    Modelling choices:
    - an exception leaves the state as it is at the [raise]; every method
      that can raise returns its result together with the state;
    - the keys of a packet dictionary and of a consent dictionary are typed
      (a type tag is text, a priority an integer, [public] a boolean, ...);
      values of other Python types under these keys are not represented;
    - [content] and the values of [metadata] are JSON values without
      floating-point numbers; text is a string of bytes, and [lower] folds
      the ASCII letters;
    - the file system behind [_persist_packet] is not represented: whether
      the write succeeds is an input of [emit_packet]. *)

From stdpp Require Import base option list strings pretty gmap.
From Stdlib Require Import ZArith Ascii String Lia Sorted.

Set Warnings "-register-all".
Local Open Scope Z_scope.

(** ** JSON-like Python values (the payload of [content] and [metadata]) *)

Inductive json :=
  | JNull
  | JBool (b : bool)
  | JInt (n : Z)
  | JStr (s : string)
  | JList (l : list json)
  | JDict (d : list (string * json)).

(** A [metadata] dictionary: keys are strings, values arbitrary. *)
Abbreviation Meta := (gmap string json).

(** Dictionaries are heap objects; a packet holds a reference to its own. *)
Abbreviation loc := positive.
Abbreviation Heap := (gmap loc (gmap string json)).

(** ** Exceptions and results *)

(** The five messages under which the module raises the base class
    [PacketError]. *)
Inductive PacketErrorKind :=
  | InvalidJSON          (* "Invalid JSON in packet data" *)
  | UnsupportedFormat    (* "Unsupported packet format" *)
  | InvalidHeader        (* "Invalid packet header" *)
  | ExceedsMaximumSize   (* "Packet exceeds maximum size" *)
  | PersistFailed.       (* "Failed to persist packet" *)

Inductive Exception :=
  | PacketError (k : PacketErrorKind)
  | IntegrityError
  | ConsentError
  | KeyError (key : string)      (* built-in, not caught by the module *)
  | TypeError
  | AttributeError.

Inductive Result (A : Type) :=
  | Ok (a : A)
  | Raise (e : Exception).
Arguments Ok {A} a.
Arguments Raise {A} e.

(** Sequencing: an exception ends the computation. *)
Definition bindR {A B} (r : Result A) (k : A -> Result B) : Result B :=
  match r with
  | Ok a => k a
  | Raise e => Raise e
  end.

(** A function that may raise, applied to each element in turn. *)
Fixpoint mapR {A B} (f : A -> Result B) (l : list A) : Result (list B) :=
  match l with
  | [] => Ok []
  | x :: l' => bindR (f x) (fun y => bindR (mapR f l') (fun ys => Ok (y :: ys)))
  end.

(** ** Enums *)

Inductive PacketType := IDENTITY | SESSION | CONTEXT | HANDOVER | SYNC | CHECKPOINT.
Inductive PacketPriority := CRITICAL | HIGH | MEDIUM | LOW.

#[global] Instance PacketType_eq_dec : EqDecision PacketType.
Proof. solve_decision. Defined.
#[global] Instance PacketPriority_eq_dec : EqDecision PacketPriority.
Proof. solve_decision. Defined.

Definition PacketType_value (t : PacketType) : string :=
  match t with
  | IDENTITY => "identity" | SESSION => "session" | CONTEXT => "context"
  | HANDOVER => "handover" | SYNC => "sync" | CHECKPOINT => "checkpoint"
  end.

Definition PacketPriority_value (p : PacketPriority) : Z :=
  match p with CRITICAL => 1 | HIGH => 2 | MEDIUM => 3 | LOW => 4 end.

(** [PacketType(v)]: lookup of a member by value; [None] is [ValueError]. *)
Definition PacketType_of_value (v : string) : option PacketType :=
  if String.eqb v "identity" then Some IDENTITY
  else if String.eqb v "session" then Some SESSION
  else if String.eqb v "context" then Some CONTEXT
  else if String.eqb v "handover" then Some HANDOVER
  else if String.eqb v "sync" then Some SYNC
  else if String.eqb v "checkpoint" then Some CHECKPOINT
  else None.

(** [PacketPriority(v)]. *)
Definition PacketPriority_of_value (v : Z) : option PacketPriority :=
  if v =? 1 then Some CRITICAL
  else if v =? 2 then Some HIGH
  else if v =? 3 then Some MEDIUM
  else if v =? 4 then Some LOW
  else None.

(** ** Consent, packets and their dictionary form *)

(** [self.consent]: always the four keys, whatever [__init__] was given. *)
Record Consent := mkConsent {
  public : bool;
  targets : list string;
  scopes : list string;
  expires_at : option string      (* ISO-8601 text, or None *)
}.

(** The [consent] argument: a dictionary read with [.get], so every key may
    be missing ([cd_expires_at = None] also stands for a stored null). *)
Record ConsentDict := mkConsentDict {
  cd_public : option bool;
  cd_targets : option (list string);
  cd_scopes : option (list string);
  cd_expires_at : option string
}.

Record ConsciousnessPacket := mkPacket {
  pk_id : string;
  pk_type : PacketType;
  pk_priority : PacketPriority;
  pk_content : json;
  pk_metadata : loc;              (* reference to the metadata dictionary *)
  pk_consent : Consent
}.

(** A packet as a dictionary ([to_dict] output, [from_dict] input).  A key
    of the input may be missing.  [M] is how the value under "metadata" is
    held: a reference [loc] for a dictionary in memory, the dictionary
    itself for freshly parsed text. *)
Record PacketDict (M : Type) := mkDict {
  d_id : option string;
  d_type : option string;
  d_priority : option Z;
  d_content : option json;
  d_metadata : option M;
  d_consent : option ConsentDict
}.
Arguments mkDict {M}.
Arguments d_id {M}.
Arguments d_type {M}.
Arguments d_priority {M}.
Arguments d_content {M}.
Arguments d_metadata {M}.
Arguments d_consent {M}.

(** ** The Python library and the clock *)

(** [datetime] values: naive (no UTC offset) or aware (an instant, here in
    microseconds of UTC). *)
Inductive datetime :=
  | Naive (wall : Z)
  | Aware (utc : Z).

(** The library functions the module calls. *)
Record PyLib := mkLib {
  json_dumps : json -> string;                      (* json.dumps(v) *)
  json_dumps_sort_keys : json -> string;            (* json.dumps(v, sort_keys=True) *)
  json_dumps_indent : PacketDict (gmap string json) -> string;
                                                    (* json.dumps(d, indent=2) *)
  json_loads : string -> option (PacketDict (gmap string json));
                                                    (* None: JSONDecodeError *)
  sha256_hexdigest : string -> string;
  md5_hexdigest : string -> string;
  py_str : json -> string;                          (* str(v) *)
  fromisoformat : string -> option datetime         (* None: ValueError *)
}.

(** One reading of the clocks, taken by a constructor call:
    [time.time_ns()] and [_now_iso()]. *)
Record Clock := mkClock {
  time_ns : Z;
  now_iso : string
}.

(** ** Strings *)

(** [s[:n]] *)
Definition str_prefix (n : nat) (s : string) : string := String.substring 0 n s.

Definition ascii_lower (c : ascii) : ascii :=
  let n := nat_of_ascii c in
  if (Nat.leb 65 n && Nat.leb n 90)%bool then ascii_of_nat (n + 32) else c.

(** [s.lower()] on ASCII text. *)
Fixpoint lower (s : string) : string :=
  match s with
  | EmptyString => EmptyString
  | String c r => String (ascii_lower c) (lower r)
  end.

(** [":" in s] *)
Fixpoint has_colon (s : string) : bool :=
  match s with
  | EmptyString => false
  | String c r => if Ascii.eqb c ":" then true else has_colon r
  end.

(** [s.split(":", 1)] for a string that holds a colon: the text before
    the first colon and the text after it. *)
Fixpoint split_colon (s : string) : string * string :=
  match s with
  | EmptyString => (EmptyString, EmptyString)
  | String c r =>
      if Ascii.eqb c ":" then (EmptyString, r)
      else let '(a, b) := split_colon r in (String c a, b)
  end.

(** [a <= b] on strings: lexicographic, by character code. *)
Fixpoint str_leb (a b : string) : bool :=
  match a, b with
  | EmptyString, _ => true
  | String _ _, EmptyString => false
  | String x a', String y b' =>
      if (nat_of_ascii x <? nat_of_ascii y)%nat then true
      else if (nat_of_ascii x =? nat_of_ascii y)%nat then str_leb a' b'
      else false
  end.

(** [x in l] for a list of strings. *)
Definition str_in (x : string) (l : list string) : bool :=
  existsb (String.eqb x) l.

(** [l[-n:]] for [n > 0]: the last [n] elements. *)
Definition last_n {A} (n : nat) (l : list A) : list A :=
  drop (List.length l - n)%nat l.

(** ** class ConsciousnessPacket *)

(** Reading a dictionary object; [metadata or {}] tests it for emptiness. *)
Definition deref (h : Heap) (l : loc) : gmap string json := default ∅ (h !! l).

Definition is_empty_dict (m : gmap string json) : bool := bool_decide (dom m = ∅).

(** A new dictionary object. *)
Definition alloc (m : gmap string json) (h : Heap) : loc * Heap :=
  let l := fresh (dom h) in (l, <[l := m]> h).

Section ConsciousnessPacket.
Context (lib : PyLib).

(** [_generate_id]: "cp_<time_ns>_<first 8 hex digits of its md5>". *)
Definition _generate_id (clk : Clock) : string :=
  let timestamp := pretty (time_ns clk) in
  let random_part := str_prefix 8 (md5_hexdigest lib timestamp) in
  String.append "cp_" (String.append timestamp (String.append "_" random_part)).

(** [_estimate_tokens]: [len(json.dumps(content)) // 4]. *)
Definition _estimate_tokens (content : json) : Z :=
  Z.of_nat (String.length (json_dumps lib content)) / 4.

(** [_calculate_checksum]: the first 16 hex digits of the SHA-256 of the
    key-sorted serialization. *)
Definition _calculate_checksum (content : json) : string :=
  str_prefix 16 (sha256_hexdigest lib (json_dumps_sort_keys lib content)).

Definition default_consent : Consent :=
  {| public := false; targets := []; scopes := ["read"%string]; expires_at := None |}.

(** The consent block of [__init__]. *)
Definition init_consent (consent : option ConsentDict) : Consent :=
  match consent with
  | None => default_consent
  | Some c =>
      {| public := default false (cd_public c);
         targets := default [] (cd_targets c);
         scopes := default ["read"%string] (cd_scopes c);
         expires_at := cd_expires_at c |}
  end.

(** [self.metadata.update({...})]: the four auto-populated keys. *)
Definition auto_populate (clk : Clock) (content : json)
    (m : gmap string json) : gmap string json :=
  <["checksum" := JStr (_calculate_checksum content)]>
    (<["token_count" := JInt (_estimate_tokens content)]>
      (<["version" := JStr "2.3.0"]>
        (<["created" := JStr (now_iso clk)]> m))).

(** [__init__].  [self.metadata = metadata or {}] keeps the caller's
    dictionary object when it is non-empty and makes a new one otherwise;
    the update then writes into that object. *)
Definition __init__ (clk : Clock) (packet_type : PacketType) (content : json)
    (priority : PacketPriority) (metadata : option loc)
    (consent : option ConsentDict) (h : Heap) : ConsciousnessPacket * Heap :=
  let '(l, h1) :=
    match metadata with
    | Some l => if is_empty_dict (deref h l) then alloc ∅ h else (l, h)
    | None => alloc ∅ h
    end in
  let self :=
    {| pk_id := _generate_id clk;
       pk_type := packet_type;
       pk_priority := priority;
       pk_content := content;
       pk_metadata := l;
       pk_consent := init_consent consent |} in
  (self, <[l := auto_populate clk content (deref h1 l)]> h1).

Definition consent_to_dict (c : Consent) : ConsentDict :=
  {| cd_public := Some (public c);
     cd_targets := Some (targets c);
     cd_scopes := Some (scopes c);
     cd_expires_at := expires_at c |}.

(** [to_dict]: the metadata entry is the packet's own dictionary object. *)
Definition to_dict (self : ConsciousnessPacket) : PacketDict loc :=
  {| d_id := Some (pk_id self);
     d_type := Some (PacketType_value (pk_type self));
     d_priority := Some (PacketPriority_value (pk_priority self));
     d_consent := Some (consent_to_dict (pk_consent self));
     d_content := Some (pk_content self);
     d_metadata := Some (pk_metadata self) |}.

(** [to_json]: the text of [to_dict], the metadata written out. *)
Definition to_json (self : ConsciousnessPacket) (h : Heap) : string :=
  let d := to_dict self in
  json_dumps_indent lib
    {| d_id := d_id d; d_type := d_type d; d_priority := d_priority d;
       d_consent := d_consent d; d_content := d_content d;
       d_metadata := Some (deref h (pk_metadata self)) |}.

(** [from_dict].  A missing or unknown type or priority is the
    [PacketError] "Invalid packet header"; a missing content is a plain
    [KeyError]; both are raised before the constructor runs. *)
Definition from_dict (clk : Clock) (data : PacketDict loc) (h : Heap)
    : Result ConsciousnessPacket * Heap :=
  match d_type data ≫= PacketType_of_value with
  | None => (Raise (PacketError InvalidHeader), h)
  | Some packet_type =>
      match d_priority data ≫= PacketPriority_of_value with
      | None => (Raise (PacketError InvalidHeader), h)
      | Some priority =>
          match d_content data with
          | None => (Raise (KeyError "content"), h)
          | Some content =>
              let '(packet, h1) :=
                __init__ clk packet_type content priority
                         (d_metadata data) (d_consent data) h in
              (* Preserve original ID *)
              (Ok {| pk_id := default (pk_id packet) (d_id data);
                     pk_type := pk_type packet;
                     pk_priority := pk_priority packet;
                     pk_content := pk_content packet;
                     pk_metadata := pk_metadata packet;
                     pk_consent := pk_consent packet |}, h1)
          end
      end
  end.

(** [verify_integrity]: the stored checksum against the recomputed one. *)
Definition verify_integrity (self : ConsciousnessPacket) (h : Heap) : bool :=
  match deref h (pk_metadata self) !! "checksum" with
  | Some (JStr expected) => String.eqb expected (_calculate_checksum (pk_content self))
  | _ => false
  end.

(** [is_expired] at the instant [now].  An empty text is falsy; a text
    that does not parse raises [ValueError]; comparing a naive datetime
    with the aware [datetime.now(timezone.utc)] raises [TypeError]; both
    are caught and answered [False]. *)
Definition is_expired (now : Z) (self : ConsciousnessPacket) : bool :=
  match expires_at (pk_consent self) with
  | None => false
  | Some text =>
      if String.eqb text "" then false
      else match fromisoformat lib text with
           | None => false
           | Some (Naive _) => false
           | Some (Aware expiry) => expiry <? now
           end
  end.

End ConsciousnessPacket.

(** ** class PacketHandler *)

Record PacketHandler := mkHandler {
  max_packet_size : Z;
  compression_threshold : Z;
  incoming_buffer : list ConsciousnessPacket;
  outgoing_buffer : list ConsciousnessPacket;
  identity_layer : option ConsciousnessPacket;
  context_layers : list ConsciousnessPacket;
  session_memory : list ConsciousnessPacket
}.

Definition MAX_BUFFER_SIZE : nat := 200.

(** [PacketHandler(max_packet_size, compression_threshold)]: empty buffers
    and layers. *)
Definition new_handler (max_size threshold : Z) : PacketHandler :=
  {| max_packet_size := max_size; compression_threshold := threshold;
     incoming_buffer := []; outgoing_buffer := [];
     identity_layer := None; context_layers := []; session_memory := [] |}.

(** What [receive_packet] is handed: text, a dictionary, or anything else. *)
Inductive PacketData :=
  | DataStr (text : string)
  | DataDict (d : PacketDict loc)
  | DataOther.

(** A number read out of a dictionary for arithmetic; [bool] is an [int]. *)
Definition as_int (v : json) : Result Z :=
  match v with
  | JInt n => Ok n
  | JBool b => Ok (if b then 1 else 0)
  | _ => Raise TypeError
  end.

(** [d[key]] *)
Definition getitem (m : gmap string json) (key : string) : Result json :=
  match m !! key with
  | Some v => Ok v
  | None => Raise (KeyError key)
  end.

Definition with_incoming (self : PacketHandler) (b : list ConsciousnessPacket) :=
  {| max_packet_size := max_packet_size self;
     compression_threshold := compression_threshold self;
     incoming_buffer := b; outgoing_buffer := outgoing_buffer self;
     identity_layer := identity_layer self;
     context_layers := context_layers self;
     session_memory := session_memory self |}.

Definition with_outgoing (self : PacketHandler) (b : list ConsciousnessPacket) :=
  {| max_packet_size := max_packet_size self;
     compression_threshold := compression_threshold self;
     incoming_buffer := incoming_buffer self; outgoing_buffer := b;
     identity_layer := identity_layer self;
     context_layers := context_layers self;
     session_memory := session_memory self |}.

Definition with_identity (self : PacketHandler) (p : option ConsciousnessPacket) :=
  {| max_packet_size := max_packet_size self;
     compression_threshold := compression_threshold self;
     incoming_buffer := incoming_buffer self;
     outgoing_buffer := outgoing_buffer self;
     identity_layer := p;
     context_layers := context_layers self;
     session_memory := session_memory self |}.

Definition with_context (self : PacketHandler) (b : list ConsciousnessPacket) :=
  {| max_packet_size := max_packet_size self;
     compression_threshold := compression_threshold self;
     incoming_buffer := incoming_buffer self;
     outgoing_buffer := outgoing_buffer self;
     identity_layer := identity_layer self;
     context_layers := b;
     session_memory := session_memory self |}.

Definition with_session (self : PacketHandler) (b : list ConsciousnessPacket) :=
  {| max_packet_size := max_packet_size self;
     compression_threshold := compression_threshold self;
     incoming_buffer := incoming_buffer self;
     outgoing_buffer := outgoing_buffer self;
     identity_layer := identity_layer self;
     context_layers := context_layers self;
     session_memory := b |}.

(** [_prune_buffers] *)
Definition _prune_buffers (self : PacketHandler) : PacketHandler :=
  let self1 :=
    if (MAX_BUFFER_SIZE <? List.length (incoming_buffer self))%nat
    then with_incoming self (last_n MAX_BUFFER_SIZE (incoming_buffer self))
    else self in
  if (MAX_BUFFER_SIZE <? List.length (outgoing_buffer self1))%nat
  then with_outgoing self1 (last_n MAX_BUFFER_SIZE (outgoing_buffer self1))
  else self1.

(** [_route_packet] *)
Definition _route_packet (self : PacketHandler) (packet : ConsciousnessPacket)
    : PacketHandler :=
  match pk_type packet with
  | IDENTITY => with_identity self (Some packet)
  | SESSION =>
      let mem := session_memory self ++ [packet] in
      with_session self (if (10 <? List.length mem)%nat then last_n 10 mem else mem)
  | CONTEXT =>
      let ctx := context_layers self ++ [packet] in
      with_context self (if (20 <? List.length ctx)%nat then last_n 20 ctx else ctx)
  | _ => self
  end.

(** [_persist_packet].  The file system is outside the model: whether the
    write, the rename and the index entry go through is an input, and a
    failure surfaces as the [PacketError] the method raises. *)
Definition _persist_packet (disk_ok : bool) : Result unit :=
  if disk_ok then Ok tt else Raise (PacketError PersistFailed).

Section PacketHandler.
Context (lib : PyLib).

(** [_summarize_content] *)
Definition _summarize_content (content : json) : string :=
  let text := json_dumps lib content in
  if (200 <? String.length text)%nat
  then String.append (str_prefix 200 text) "..."
  else text.

(** [_extract_key_points]: the first five keys, each with the first 50
    characters of [str] of its value. *)
Definition _extract_key_points (content : json) : Result (list string) :=
  match content with
  | JDict d =>
      Ok (map (fun kv : string * json =>
                 String.append kv.1 (String.append ": " (str_prefix 50 (py_str lib kv.2))))
              (take 5 d))
  | _ => Raise AttributeError
  end.

(** [_compress_packet].  The constructor is handed a copy of the
    original's metadata, so the original dictionary is left alone. *)
Definition _compress_packet (clk : Clock) (packet : ConsciousnessPacket)
    (h : Heap) : Result ConsciousnessPacket * Heap :=
  let meta := deref h (pk_metadata packet) in
  match getitem meta "checksum" with
  | Raise e => (Raise e, h)
  | Ok original_checksum =>
  match getitem meta "token_count" with
  | Raise e => (Raise e, h)
  | Ok original_size =>
  match _extract_key_points (pk_content packet) with
  | Raise e => (Raise e, h)
  | Ok key_points =>
      let compressed_content :=
        JDict [("compressed"%string, JBool true);
               ("original_id"%string, JStr (pk_id packet));
               ("original_checksum"%string, original_checksum);
               ("original_size"%string, original_size);
               ("summary"%string, JStr (_summarize_content (pk_content packet)));
               ("key_points"%string, JList (map JStr key_points))] in
      let '(copy, h1) := alloc meta h in
      let '(compressed_packet, h2) :=
        __init__ lib clk (pk_type packet) compressed_content (pk_priority packet)
                 (Some copy) (Some (consent_to_dict (pk_consent packet))) h1 in
      match getitem (deref h2 (pk_metadata packet)) "checksum" with
      | Raise e => (Raise e, h2)
      | Ok checksum_again =>
          let l := pk_metadata compressed_packet in
          (Ok compressed_packet,
           <[l := <["original_checksum" := checksum_again]>
                    (<["compressed" := JBool true]> (deref h2 l))]> h2)
      end
  end end end.

Definition priority_map (t : PacketType) : PacketPriority :=
  match t with
  | IDENTITY => CRITICAL
  | HANDOVER => HIGH
  | SESSION => MEDIUM
  | CONTEXT => MEDIUM
  | SYNC => LOW
  | CHECKPOINT => HIGH
  end.

(** [create_packet].  [clk] is read by the constructor, [clk'] by the
    constructor of the compressed packet when there is one. *)
Definition create_packet (self : PacketHandler) (clk clk' : Clock)
    (packet_type : PacketType) (content : json)
    (priority : option PacketPriority) (consent : option ConsentDict)
    (h : Heap) : Result ConsciousnessPacket * Heap :=
  let priority := default (priority_map packet_type) priority in
  let '(packet, h1) := __init__ lib clk packet_type content priority None consent h in
  match bindR (getitem (deref h1 (pk_metadata packet)) "token_count") as_int with
  | Raise e => (Raise e, h1)
  | Ok token_count =>
      if max_packet_size self <? token_count
      then (Raise (PacketError ExceedsMaximumSize), h1)
      else if compression_threshold self <? token_count
      then _compress_packet clk' packet h1
      else (Ok packet, h1)
  end.

(** A dictionary parsed from text: its metadata is a new object. *)
Definition load_parsed (d : PacketDict (gmap string json)) (h : Heap)
    : PacketDict loc * Heap :=
  match d_metadata d with
  | Some m =>
      let '(l, h1) := alloc m h in
      ({| d_id := d_id d; d_type := d_type d; d_priority := d_priority d;
          d_content := d_content d; d_metadata := Some l;
          d_consent := d_consent d |}, h1)
  | None =>
      ({| d_id := d_id d; d_type := d_type d; d_priority := d_priority d;
          d_content := d_content d; d_metadata := None;
          d_consent := d_consent d |}, h)
  end.

(** The "Parse input" block of [receive_packet]. *)
Definition parse_input (packet_data : PacketData) (h : Heap)
    : Result (PacketDict loc) * Heap :=
  match packet_data with
  | DataStr text =>
      match json_loads lib text with
      | None => (Raise (PacketError InvalidJSON), h)
      | Some parsed => let '(d, h1) := load_parsed parsed h in (Ok d, h1)
      end
  | DataDict d => (Ok d, h)
  | DataOther => (Raise (PacketError UnsupportedFormat), h)
  end.

(** [receive_packet].  [clk] is read by the constructor inside
    [from_dict], [now] by [is_expired]. *)
Definition receive_packet (clk : Clock) (now : Z) (packet_data : PacketData)
    (self : PacketHandler) (h : Heap)
    : Result ConsciousnessPacket * PacketHandler * Heap :=
  match parse_input packet_data h with
  | (Raise e, h0) => (Raise e, self, h0)
  | (Ok packet_dict, h0) =>
      (* Reconstruct packet with validation *)
      match from_dict lib clk packet_dict h0 with
      | (Raise e, h1) => (Raise e, self, h1)
      | (Ok packet, h1) =>
          (* Verify integrity *)
          if negb (verify_integrity lib packet h1)
          then (Raise IntegrityError, self, h1)
          (* Check expiry *)
          else if is_expired lib now packet
          then (Raise ConsentError, self, h1)
          else
            (* Add to incoming buffer with pruning *)
            let self1 := with_incoming self (incoming_buffer self ++ [packet]) in
            let self2 := _prune_buffers self1 in
            (* Route to appropriate layer *)
            (Ok packet, _route_packet self2 packet, h1)
      end
  end.

(** [emit_packet].  [self.storage_path] is a [Path], which is always
    truthy, so the packet is always persisted. *)
Definition emit_packet (disk_ok : bool) (packet : ConsciousnessPacket)
    (self : PacketHandler) (h : Heap) : Result string * PacketHandler :=
  let self1 := with_outgoing self (outgoing_buffer self ++ [packet]) in
  let self2 := _prune_buffers self1 in
  match _persist_packet disk_ok with
  | Raise e => (Raise e, self2)
  | Ok _ => (Ok (to_json lib packet h), self2)
  end.

(** The block [if scope: return scope in scopes; return True], which
    [can_share_with] runs at each of its three matches.  [if scope] is a
    truth test: [None] and the empty string are both falsy. *)
Definition scope_allows (scope : option string) (c : Consent) : bool :=
  match scope with
  | None => true
  | Some s => if String.eqb s "" then true else str_in s (scopes c)
  end.

(** The [for target in packet.consent["targets"]] loop. *)
Fixpoint scan_targets (recipient_lower : string) (scope : option string)
    (c : Consent) (ts : list string) : bool :=
  match ts with
  | [] => false
  | target :: rest =>
      if has_colon target then
        let '(target_name, target_id) := split_colon target in
        if (String.eqb recipient_lower (lower target_name)
            || String.eqb recipient_lower (lower target_id))%bool
        then scope_allows scope c
        else scan_targets recipient_lower scope c rest
      else
        if String.eqb recipient_lower (lower target)
        then scope_allows scope c
        else scan_targets recipient_lower scope c rest
  end.

(** [can_share_with] at the instant [now]. *)
Definition can_share_with (now : Z) (packet : ConsciousnessPacket)
    (recipient : string) (scope : option string) : bool :=
  if is_expired lib now packet then false
  else if public (pk_consent packet) then scope_allows scope (pk_consent packet)
  else scan_targets (lower recipient) scope (pk_consent packet)
                    (targets (pk_consent packet)).

(** [filter_packets_for_recipient] *)
Definition filter_packets_for_recipient (now : Z)
    (packets : list ConsciousnessPacket) (recipient : string)
    (scope : option string) : list ConsciousnessPacket :=
  List.filter (fun p => can_share_with now p recipient scope) packets.

End PacketHandler.

(** ** Context reconstruction *)

(** The sort key [(x.priority.value, x.metadata.get("created", ""))].
    [__init__] always stores text under "created"; a value of another type
    there is outside the model and is reported as [TypeError]. *)
Definition sort_key (h : Heap) (x : ConsciousnessPacket) : Result (Z * string) :=
  match deref h (pk_metadata x) !! "created" with
  | None => Ok (PacketPriority_value (pk_priority x), ""%string)
  | Some (JStr created) => Ok (PacketPriority_value (pk_priority x), created)
  | Some _ => Raise TypeError
  end.

(** Tuple comparison [a <= b]. *)
Definition key_leb (a b : Z * string) : bool :=
  (a.1 <? b.1) || ((a.1 =? b.1) && str_leb a.2 b.2).

(** [sorted(pool, key=...)] is a stable sort; a stable insertion sort
    returns the same list. *)
Fixpoint insert_by_key {A} (x : (Z * string) * A) (l : list ((Z * string) * A))
    : list ((Z * string) * A) :=
  match l with
  | [] => [x]
  | y :: l' => if key_leb x.1 y.1 then x :: y :: l' else y :: insert_by_key x l'
  end.

Definition sorted_by_key {A} (l : list ((Z * string) * A)) : list ((Z * string) * A) :=
  foldr insert_by_key [] l.

Definition type_label (packet : ConsciousnessPacket) : string :=
  match pk_type packet with
  | SESSION => "session"
  | CONTEXT => "context"
  | t => PacketType_value t
  end.

(** The [for packet in sorted_pool] loop of [_select_packets_by_priority]:
    the budget test for stopping runs after every packet, picked or not. *)
Fixpoint select_loop (h : Heap) (sorted_pool : list ConsciousnessPacket)
    (budget : Z) : Result (list (string * ConsciousnessPacket)) :=
  match sorted_pool with
  | [] => Ok []
  | packet :: rest =>
      bindR (as_int (default (JInt 0) (deref h (pk_metadata packet) !! "token_count")))
        (fun tokens =>
           let picked := if tokens <=? budget then [(type_label packet, packet)] else [] in
           let budget' := if tokens <=? budget then budget - tokens else budget in
           if budget' <? 100 then Ok picked
           else bindR (select_loop h rest budget') (fun more => Ok (picked ++ more)))
  end.

(** [_select_packets_by_priority] *)
Definition _select_packets_by_priority (h : Heap)
    (pool : list ConsciousnessPacket) (budget : Z)
    : Result (list (string * ConsciousnessPacket)) :=
  bindR (mapR (fun x => bindR (sort_key h x) (fun k => Ok (k, x))) pool)
    (fun keyed => select_loop h (map snd (sorted_by_key keyed)) budget).

Record Layer := mkLayer {
  layer_type : string;
  layer_content : json;
  layer_tokens : Z
}.

Record ContextResult := mkContext {
  timestamp : string;
  layers : list Layer;
  handler_version : string;
  total_tokens : Z;
  remaining_tokens : Z
}.

(** [packet.metadata["token_count"]], read as a number. *)
Definition token_count_of (h : Heap) (packet : ConsciousnessPacket) : Result Z :=
  bindR (getitem (deref h (pk_metadata packet)) "token_count") as_int.

(** Step 1 of [reconstruct_context]: the identity layer, when asked for,
    present and within the budget. *)
Definition identity_part (self : PacketHandler) (h : Heap) (token_budget : Z)
    (include_identity : bool) : Result (list Layer) :=
  match (if include_identity then identity_layer self else None) with
  | None => Ok []
  | Some identity =>
      bindR (token_count_of h identity) (fun identity_tokens =>
        if identity_tokens <=? token_budget
        then Ok [ {| layer_type := "identity"; layer_content := pk_content identity;
                     layer_tokens := identity_tokens |} ]
        else Ok [])
  end.

Definition layer_of (h : Heap) (entry : string * ConsciousnessPacket) : Result Layer :=
  bindR (token_count_of h entry.2) (fun tokens =>
    Ok {| layer_type := entry.1; layer_content := pk_content entry.2;
          layer_tokens := tokens |}).

Definition sum_tokens (ls : list Layer) : Z :=
  foldr (fun l acc => layer_tokens l + acc) 0 ls.

(** [reconstruct_context]; [now_text] is the reading of [_now_iso()]. *)
Definition reconstruct_context (now_text : string) (self : PacketHandler)
    (h : Heap) (token_budget : Z) (include_identity : bool)
    : Result ContextResult :=
  bindR (identity_part self h token_budget include_identity) (fun first =>
    let remaining_tokens := token_budget - sum_tokens first in
    let all_packets := session_memory self ++ context_layers self in
    bindR (_select_packets_by_priority h all_packets remaining_tokens) (fun selected =>
      bindR (mapR (layer_of h) selected) (fun rest =>
        let remaining_tokens := remaining_tokens - sum_tokens rest in
        Ok {| timestamp := now_text;
              layers := first ++ rest;
              handler_version := "2.3.0";
              total_tokens := token_budget - remaining_tokens;
              remaining_tokens := remaining_tokens |}))).

(** ** The rest of class PacketHandler *)

(** [d.get(key)] on a JSON object (its keys are distinct). *)
Fixpoint dict_get (d : list (string * json)) (key : string) : option json :=
  match d with
  | [] => None
  | (k, v) :: rest => if String.eqb k key then Some v else dict_get rest key
  end.

(** Python's truth test on a JSON value. *)
Definition truthy (v : json) : bool :=
  match v with
  | JNull => false
  | JBool b => b
  | JInt n => negb (n =? 0)
  | JStr s => negb (String.eqb s "")
  | JList l => match l with [] => false | _ => true end
  | JDict d => match d with [] => false | _ => true end
  end.

(** [decompress_packet].  [fetch_original] is the caller's lookup, which
    may raise; a missing key of the placeholder raises [KeyError] inside
    the same [try].  Every exception there is caught and the placeholder
    content returned.  A content that is no dictionary has no [get]. *)
Definition decompress_packet (compressed : ConsciousnessPacket)
    (fetch_original : option (json -> json -> Result json)) : Result json :=
  match pk_content compressed with
  | JDict d =>
      if negb (truthy (default JNull (dict_get d "compressed")))
      then Ok (pk_content compressed)
      else
        match fetch_original with
        | Some fetch =>
            match dict_get d "original_id", dict_get d "original_checksum" with
            | Some original_id, Some original_checksum =>
                match fetch original_id original_checksum with
                | Ok original => Ok original
                | Raise _ => Ok (pk_content compressed)
                end
            | _, _ => Ok (pk_content compressed)
            end
        | None => Ok (pk_content compressed)
        end
  | _ => Raise AttributeError
  end.

(** [v[:3]]: a list or a text can be sliced; [None], a number or a boolean
    cannot ([TypeError]), and neither can a dictionary ([TypeError] up to
    Python 3.11). *)
Definition slice3 (v : json) : Result json :=
  match v with
  | JList l => Ok (JList (take 3 l))
  | JStr s => Ok (JStr (str_prefix 3 s))
  | _ => Raise TypeError
  end.

(** [_get_minimal_anchors] *)
Definition _get_minimal_anchors (self : PacketHandler) (h : Heap) : Result json :=
  match identity_layer self with
  | Some identity_packet =>
      match pk_content identity_packet with
      | JDict fields =>
          bindR (slice3 (default (JList []) (dict_get fields "traits")))
            (fun traits =>
               Ok (JDict [("name"%string,
                           default (JStr "Unknown") (dict_get fields "name"));
                          ("signature"%string,
                           default JNull
                             (deref h (pk_metadata identity_packet) !! "checksum"));
                          ("traits"%string, traits)]))
      | _ => Raise AttributeError
      end
  | None =>
      Ok (JDict [("name"%string, JStr "Unknown"); ("signature"%string, JNull);
                 ("traits"%string, JList [])])
  end.

(** [p.metadata.get("token_count", 0)], read as a number. *)
Definition token_count_get (h : Heap) (p : ConsciousnessPacket) : Result Z :=
  as_int (default (JInt 0) (deref h (pk_metadata p) !! "token_count")).

(** [sum(p.metadata.get("token_count", 0) for p in l)] *)
Fixpoint sum_token_counts (h : Heap) (l : list ConsciousnessPacket) : Result Z :=
  match l with
  | [] => Ok 0
  | p :: rest =>
      bindR (token_count_get h p) (fun n =>
        bindR (sum_token_counts h rest) (fun total => Ok (n + total)))
  end.

(** The dictionary [get_statistics] returns, without its [storage_path]
    entry (the handler's path is not represented). *)
Record Statistics := mkStatistics {
  stat_handler_version : string;
  stat_total_packets : nat;
  stat_incoming_buffer : nat;
  stat_outgoing_buffer : nat;
  stat_context_layers : nat;
  stat_session_memories : nat;
  stat_has_identity : bool;
  stat_total_tokens : Z;
  stat_buffer_limit : nat
}.

(** [get_statistics] *)
Definition get_statistics (self : PacketHandler) (h : Heap) : Result Statistics :=
  let total_packets :=
    (List.length (incoming_buffer self) + List.length (outgoing_buffer self)
     + List.length (context_layers self) + List.length (session_memory self)
     + (match identity_layer self with Some _ => 1 | None => 0 end))%nat in
  bindR (sum_token_counts h (context_layers self ++ session_memory self))
    (fun total_tokens =>
       bindR (match identity_layer self with
              | Some identity => bindR (token_count_get h identity)
                                       (fun n => Ok (total_tokens + n))
              | None => Ok total_tokens
              end)
         (fun total_tokens =>
            Ok {| stat_handler_version := "2.3.0";
                  stat_total_packets := total_packets;
                  stat_incoming_buffer := List.length (incoming_buffer self);
                  stat_outgoing_buffer := List.length (outgoing_buffer self);
                  stat_context_layers := List.length (context_layers self);
                  stat_session_memories := List.length (session_memory self);
                  stat_has_identity :=
                    match identity_layer self with Some _ => true | None => false end;
                  stat_total_tokens := total_tokens;
                  stat_buffer_limit := MAX_BUFFER_SIZE |})).

(** The dictionaries of [reconstruct_context], as JSON values. *)
Definition layer_to_json (l : Layer) : json :=
  JDict [("type"%string, JStr (layer_type l));
         ("content"%string, layer_content l);
         ("tokens"%string, JInt (layer_tokens l))].

Definition context_to_json (c : ContextResult) : json :=
  JDict [("timestamp"%string, JStr (timestamp c));
         ("layers"%string, JList (map layer_to_json (layers c)));
         ("handler_version"%string, JStr (handler_version c));
         ("total_tokens"%string, JInt (total_tokens c));
         ("remaining_tokens"%string, JInt (remaining_tokens c))].

(** The content [create_handover_packet] builds. *)
Definition handover_content (from_provider to_provider now_text : string)
    (session_data context anchors : json) : json :=
  JDict [("from_provider"%string, JStr from_provider);
         ("to_provider"%string, JStr to_provider);
         ("timestamp"%string, JStr now_text);
         ("session"%string, session_data);
         ("context"%string, context);
         ("anchors"%string, anchors);
         ("protocol"%string, JStr "consciousness_persistence_v2.3.0")].

(** [create_handover_packet].  [now_text] and [context_now] are the two
    readings of [_now_iso()], the second inside [reconstruct_context];
    [clk] and [clk'] are read by [create_packet]. *)
Definition create_handover_packet (lib : PyLib) (self : PacketHandler)
    (now_text context_now : string) (clk clk' : Clock)
    (from_provider to_provider : string) (session_data : json)
    (context_budget : Z) (h : Heap) : Result ConsciousnessPacket * Heap :=
  match reconstruct_context context_now self h context_budget true with
  | Raise e => (Raise e, h)
  | Ok context =>
      match _get_minimal_anchors self h with
      | Raise e => (Raise e, h)
      | Ok anchors =>
          create_packet lib self clk clk' HANDOVER
            (handover_content from_provider to_provider now_text session_data
                              (context_to_json context) anchors)
            (Some HIGH) None h
      end
  end.

(** ** Executions: sequences of handler operations *)

Inductive Op :=
  | Create (clk clk' : Clock) (packet_type : PacketType) (content : json)
           (priority : option PacketPriority) (consent : option ConsentDict)
  | Receive (clk : Clock) (now : Z) (packet_data : PacketData)
  | Emit (disk_ok : bool) (packet : ConsciousnessPacket).

(** What a run has handed to the handler so far: the packets
    [receive_packet] returned, and the packets given to [emit_packet]. *)
Record Trace := mkTrace {
  received : list ConsciousnessPacket;
  emitted : list ConsciousnessPacket
}.

Record World := mkWorld {
  w_handler : PacketHandler;
  w_heap : Heap;
  w_trace : Trace
}.

Definition step (lib : PyLib) (w : World) (op : Op) : World :=
  match op with
  | Create clk clk' t content priority consent =>
      {| w_handler := w_handler w;
         w_heap := (create_packet lib (w_handler w) clk clk' t content priority consent
                                  (w_heap w)).2;
         w_trace := w_trace w |}
  | Receive clk now data =>
      let '(r, self, h) := receive_packet lib clk now data (w_handler w) (w_heap w) in
      {| w_handler := self; w_heap := h;
         w_trace :=
           match r with
           | Ok packet => {| received := received (w_trace w) ++ [packet];
                             emitted := emitted (w_trace w) |}
           | Raise _ => w_trace w
           end |}
  | Emit disk_ok packet =>
      {| w_handler := (emit_packet lib disk_ok packet (w_handler w) (w_heap w)).2;
         w_heap := w_heap w;
         w_trace := {| received := received (w_trace w);
                       emitted := emitted (w_trace w) ++ [packet] |} |}
  end.

(** A run from a new handler, over whatever objects [h0] the caller has. *)
Definition run (lib : PyLib) (max_size threshold : Z) (h0 : Heap) (ops : list Op)
    : World :=
  foldl (step lib)
        {| w_handler := new_handler max_size threshold; w_heap := h0;
           w_trace := {| received := []; emitted := [] |} |}
        ops.

(** The packets of one type, in order. *)
Definition of_type (t : PacketType) (l : list ConsciousnessPacket)
    : list ConsciousnessPacket :=
  List.filter (fun p => bool_decide (pk_type p = t)) l.

(** ** A small instance of the library

    The theorems below hold for every [PyLib].  To run the model on
    concrete inputs one instance is spelled out: a serializer in the layout
    of [json.dumps], a reader for the timestamps [isoformat()] writes, and
    simple stand-ins for the two digests (they are not SHA-256 and MD5) and
    for the text parser (it reads nothing). *)
Module Sample.

Definition dquote : string := String (ascii_of_nat 34) EmptyString.

Definition quote (s : string) : string :=
  String.append dquote (String.append s dquote).

Fixpoint join (sep : string) (l : list string) : string :=
  match l with
  | [] => ""
  | [x] => x
  | x :: l' => String.append x (String.append sep (join sep l'))
  end.

Fixpoint insert_key (x : string * string) (l : list (string * string))
    : list (string * string) :=
  match l with
  | [] => [x]
  | y :: l' => if str_leb x.1 y.1 then x :: y :: l' else y :: insert_key x l'
  end.

Fixpoint dumps (sort_keys : bool) (v : json) : string :=
  match v with
  | JNull => "null"
  | JBool true => "true"
  | JBool false => "false"
  | JInt n => pretty n
  | JStr s => quote s
  | JList l => String.append "[" (String.append (join ", " (map (dumps sort_keys) l)) "]")
  | JDict d =>
      let items := map (fun kv : string * json => (kv.1, dumps sort_keys kv.2)) d in
      let items := if sort_keys then foldr insert_key [] items else items in
      String.append "{"
        (String.append
           (join ", " (map (fun kv : string * string =>
                              String.append (quote kv.1) (String.append ": " kv.2)) items))
           "}")
  end.

(** Stand-in digest: a weighted sum of the character codes, as text. *)
Fixpoint weigh (s : string) (i acc : Z) : Z :=
  match s with
  | EmptyString => acc
  | String c r => weigh r (i + 1) ((acc * 31 + i * Z.of_nat (nat_of_ascii c)) mod 10000000000000000)
  end.

Definition digest (s : string) : string :=
  pretty (10000000000000000 + weigh s 1 7).

Definition digit (c : ascii) : option Z :=
  let n := Z.of_nat (nat_of_ascii c) in
  if (48 <=? n) && (n <=? 57) then Some (n - 48) else None.

(** Exactly [n] decimal digits off the front of [s]. *)
Fixpoint digits (n : nat) (acc : Z) (s : string) : option (Z * string) :=
  match n, s with
  | O, _ => Some (acc, s)
  | S n', String c r => d ← digit c; digits n' (acc * 10 + d) r
  | S _, EmptyString => None
  end.

Definition expect (c : ascii) (s : string) : option string :=
  match s with
  | String c' r => if Ascii.eqb c c' then Some r else None
  | EmptyString => None
  end.

(** Days from 1970-01-01 to the given civil date. *)
Definition days_from_civil (y m d : Z) : Z :=
  let y' := if m <=? 2 then y - 1 else y in
  let era := y' / 400 in
  let yoe := y' - era * 400 in
  let mp := (m + 9) mod 12 in
  let doy := (153 * mp + 2) / 5 + d - 1 in
  let doe := yoe * 365 + yoe / 4 - yoe / 100 + doy in
  era * 146097 + doe - 719468.

(** The optional ".ffffff" part. *)
Definition fraction (s : string) : option (Z * string) :=
  match s with
  | String "." r => digits 6 0 r
  | _ => Some (0, s)
  end.

(** "YYYY-MM-DDTHH:MM:SS[.ffffff][+HH:MM|-HH:MM]" *)
Definition parse_iso (s : string) : option datetime :=
  '(y, s) ← digits 4 0 s; s ← expect "-" s;
  '(mo, s) ← digits 2 0 s; s ← expect "-" s;
  '(d, s) ← digits 2 0 s; s ← expect "T" s;
  '(hh, s) ← digits 2 0 s; s ← expect ":" s;
  '(mi, s) ← digits 2 0 s; s ← expect ":" s;
  '(ss, s) ← digits 2 0 s;
  '(us, s) ← fraction s;
  if negb ((1 <=? mo) && (mo <=? 12) && (1 <=? d) && (d <=? 31)
           && (hh <? 24) && (mi <? 60) && (ss <? 60)) then None
  else
    let wall := (((days_from_civil y mo d * 24 + hh) * 60 + mi) * 60 + ss) * 1000000 + us in
    match s with
    | EmptyString => Some (Naive wall)
    | String sign r =>
        '(oh, r) ← digits 2 0 r; r ← expect ":" r;
        '(om, r) ← digits 2 0 r;
        let offset := (oh * 60 + om) * 60 * 1000000 in
        match r with
        | EmptyString =>
            if Ascii.eqb sign "+" then Some (Aware (wall - offset))
            else if Ascii.eqb sign "-" then Some (Aware (wall + offset))
            else None
        | _ => None
        end
    end.

Definition dict_json (d : PacketDict (gmap string json)) : json :=
  JDict [("id"%string, from_option JStr JNull (d_id d));
         ("type"%string, from_option JStr JNull (d_type d));
         ("priority"%string, from_option JInt JNull (d_priority d));
         ("content"%string, default JNull (d_content d));
         ("metadata"%string, JDict (map_to_list (default ∅ (d_metadata d))))].

Definition lib : PyLib :=
  {| json_dumps := dumps false;
     json_dumps_sort_keys := dumps true;
     json_dumps_indent := fun d => dumps false (dict_json d);
     json_loads := fun _ => None;
     sha256_hexdigest := digest;
     md5_hexdigest := digest;
     py_str := dumps false;
     fromisoformat := parse_iso |}.

End Sample.

(** ** Notions of the specification *)

(** The recipient against one entry of [targets], in the spec's words:
    case-insensitively equal to a bare name, or to either half of a
    "name:id" entry split at its first colon. *)
Definition target_matches (recipient target : string) : Prop :=
  (has_colon target = false /\ lower recipient = lower target)
  \/ (exists name ident,
        target = String.append name (String ":" ident) /\ has_colon name = false /\
        (lower recipient = lower name \/ lower recipient = lower ident)).

(** The scope test in the spec's words, with the code's reading of "no
    scope": [None] or the empty string. *)
Definition scope_passes (scope : option string) (c : Consent) : Prop :=
  match scope with
  | None => True
  | Some s => s = ""%string \/ In s (scopes c)
  end.

(** Where the constructor puts the metadata: in the caller's dictionary
    when that one is non-empty, in a new object otherwise. *)
Definition init_loc (metadata : option loc) (h : Heap) : loc :=
  match metadata with
  | Some l => if is_empty_dict (deref h l) then fresh (dom h) else l
  | None => fresh (dom h)
  end.

(** The handler after a packet has passed validation: the tail of
    [receive_packet]. *)
Definition accept (self : PacketHandler) (packet : ConsciousnessPacket)
    : PacketHandler :=
  _route_packet
    (_prune_buffers (with_incoming self (incoming_buffer self ++ [packet]))) packet.

(** The text under "created", as the sort key reads it. *)
Definition created_of (h : Heap) (p : ConsciousnessPacket) : string :=
  match deref h (pk_metadata p) !! "created" with
  | Some (JStr created) => created
  | _ => ""%string
  end.

(** The order of the returned packets, in the spec's words: a smaller
    priority value first, and within one priority the earlier [created]
    text first. *)
Definition before (h : Heap) (a b : ConsciousnessPacket) : Prop :=
  PacketPriority_value (pk_priority a) < PacketPriority_value (pk_priority b)
  \/ (PacketPriority_value (pk_priority a) = PacketPriority_value (pk_priority b)
      /\ str_leb (created_of h a) (created_of h b) = true).

(** The token count of a packet, as stored. *)
Definition tokens_of (h : Heap) (p : ConsciousnessPacket) : Z :=
  match deref h (pk_metadata p) !! "token_count" with
  | Some (JInt n) => n
  | _ => 0
  end.

(** The metadata a constructor leaves behind: a count that is not
    negative and a [created] text. *)
Definition meta_ok (h : Heap) (p : ConsciousnessPacket) : Prop :=
  exists n created,
    deref h (pk_metadata p) !! "token_count" = Some (JInt n) /\ 0 <= n
    /\ deref h (pk_metadata p) !! "created" = Some (JStr created).

(** Every packet of the three tiers carries such metadata. *)
Definition tiers_ok (self : PacketHandler) (h : Heap) : Prop :=
  Forall (meta_ok h) (session_memory self ++ context_layers self)
  /\ (forall identity, identity_layer self = Some identity -> meta_ok h identity).

(** The layer [reconstruct_context] writes for a selected packet. *)
Definition layer_for (h : Heap) (entry : string * ConsciousnessPacket) : Layer :=
  {| layer_type := entry.1; layer_content := pk_content entry.2;
     layer_tokens := tokens_of h entry.2 |}.

(** Non-decreasing sort keys. *)
Definition keys_ascend {A} (x y : (Z * string) * A) : Prop := key_leb x.1 y.1 = true.

(** The sort key of a packet whose [created] is text. *)
Definition key_of (h : Heap) (p : ConsciousnessPacket) : Z * string :=
  (PacketPriority_value (pk_priority p), created_of h p).

(** The invariant of a run: every buffer and tier is the tail of what the
    run has handed to it. *)
Definition tails_of_trace (w : World) : Prop :=
  incoming_buffer (w_handler w) = last_n MAX_BUFFER_SIZE (received (w_trace w))
  /\ outgoing_buffer (w_handler w) = last_n MAX_BUFFER_SIZE (emitted (w_trace w))
  /\ session_memory (w_handler w) = last_n 10 (of_type SESSION (received (w_trace w)))
  /\ context_layers (w_handler w) = last_n 20 (of_type CONTEXT (received (w_trace w)))
  /\ identity_layer (w_handler w) = last (of_type IDENTITY (received (w_trace w))).

(** The stored token counts of a list of packets, added up. *)
Definition tokens_total (h : Heap) (l : list ConsciousnessPacket) : Z :=
  foldr (fun p acc => tokens_of h p + acc) 0 l.

(** ** Concrete inputs *)

Module Scenario.

(** Two readings of the clock, a day apart, and an expiry between them. *)
Definition clkA : Clock := mkClock 1793700000000000000 "2026-11-03T10:00:00+00:00".
Definition nowA : Z := 1793700000000000.
Definition clkB : Clock := mkClock 1793782800000000000 "2026-11-04T09:00:00+00:00".
Definition nowB : Z := 1793782800000000.
Definition expiry : string := "2026-11-03T12:00:00+00:00".

(** The caller's memory: one dictionary, which the caller uses as the
    metadata of the packet dictionaries below. *)
Definition heap0 : Heap := {[ 1%positive := {[ "source"%string := JStr "caller" ]} ]}.

Definition expiring : ConsentDict :=
  {| cd_public := Some true; cd_targets := None; cd_scopes := None;
     cd_expires_at := Some expiry |}.

(** A SESSION packet as a dictionary, its metadata the caller's object. *)
Definition session_dict : PacketDict loc :=
  {| d_id := Some "cp_1"%string; d_type := Some "session"%string;
     d_priority := Some 3;
     d_content := Some (JDict [("note"%string, JStr "hello")]);
     d_metadata := Some 1%positive; d_consent := Some expiring |}.

(** A shallow copy of [session_dict] with another content: the metadata
    is still the same object. *)
Definition edited_dict : PacketDict loc :=
  {| d_id := Some "cp_1"%string; d_type := Some "session"%string;
     d_priority := Some 3;
     d_content := Some (JDict [("note"%string, JStr "hello, and a good deal more text")]);
     d_metadata := Some 1%positive; d_consent := Some expiring |}.

(** An IDENTITY packet sent with the lowest priority, and a SESSION
    packet sent with the highest. *)
Definition low_identity : PacketDict loc :=
  {| d_id := Some "cp_2"%string; d_type := Some "identity"%string;
     d_priority := Some 4;
     d_content := Some (JDict [("name"%string, JStr "assistant")]);
     d_metadata := None; d_consent := None |}.

Definition critical_session : PacketDict loc :=
  {| d_id := Some "cp_3"%string; d_type := Some "session"%string;
     d_priority := Some 1;
     d_content := Some (JDict [("note"%string, JStr "urgent")]);
     d_metadata := None; d_consent := None |}.

Definition two_tiers : list Op :=
  [Receive clkA nowA (DataDict low_identity);
   Receive clkB nowB (DataDict critical_session)].

(** A content of 25 characters, that is 6 tokens. *)
Definition payload : list (string * json) :=
  [("a"%string, JStr "0123456789012345")].

End Scenario.

(** ["_" in s] *)
Fixpoint has_underscore (s : string) : bool :=
  match s with
  | EmptyString => false
  | String c r => if Ascii.eqb c "_" then true else has_underscore r
  end.

(** ** More concrete inputs *)

Module Cases.

(** The caller's dictionary of [Scenario.heap0] and one more object. *)
Definition two_objects : Heap :=
  <[2%positive := {[ "kept"%string := JInt 1 ]}]> Scenario.heap0.

(** A packet whose metadata is the caller's dictionary, with no expiry. *)
Definition live_packet : ConsciousnessPacket :=
  {| pk_id := "cp_9"; pk_type := CONTEXT; pk_priority := MEDIUM;
     pk_content := JDict [("note"%string, JStr "hello")];
     pk_metadata := 1%positive;
     pk_consent := {| public := false; targets := ["Claude"%string];
                      scopes := ["read"%string]; expires_at := None |} |}.

(** A public packet that expires at [Scenario.expiry]. *)
Definition expiring_packet : ConsciousnessPacket :=
  {| pk_id := "cp_8"; pk_type := SESSION; pk_priority := MEDIUM;
     pk_content := JDict []; pk_metadata := 1%positive;
     pk_consent := {| public := true; targets := []; scopes := ["read"%string];
                      expires_at := Some Scenario.expiry |} |}.

(** A lookup that knows one original. *)
Definition lookup (original_id original_checksum : json) : Result json :=
  Ok (JDict Scenario.payload).

End Cases.

(** * Properties *)

(** ** Expiry and the consent engine *)

Section Consent.
Context (lib : PyLib).

Lemma is_expired_true_inv now p :
  is_expired lib now p = true ->
  exists text expiry,
    expires_at (pk_consent p) = Some text /\ text <> ""%string /\
    fromisoformat lib text = Some (Aware expiry) /\ expiry < now.
Proof.
  unfold is_expired. destruct (expires_at (pk_consent p)) as [text|]; [|discriminate].
  destruct (String.eqb_spec text "") as [->|Hne]; [discriminate|].
  destruct (fromisoformat lib text) as [[wall|expiry]|] eqn:Hp; try discriminate.
  intros Hlt. exists text, expiry. repeat split; auto. lia.
Qed.

Lemma is_expired_aware now p text expiry :
  expires_at (pk_consent p) = Some text -> text <> ""%string ->
  fromisoformat lib text = Some (Aware expiry) ->
  is_expired lib now p = (expiry <? now).
Proof.
  intros He Hne Hp. unfold is_expired. rewrite He.
  destruct (String.eqb_spec text "") as [->|_]; [congruence|]. now rewrite Hp.
Qed.

(** C9 (as amended).  [is_expired] answers true exactly when [expires_at]
    holds a non-empty text that parses to a datetime with a UTC offset
    lying strictly before the current instant.  Hence it answers false
    when [expires_at] is absent, null or empty, when the text does not
    parse, and also when it parses to a datetime without offset. *)
Theorem is_expired_iff now p :
  (is_expired lib now p = true <->
     exists text expiry,
       expires_at (pk_consent p) = Some text /\ text <> ""%string /\
       fromisoformat lib text = Some (Aware expiry) /\ expiry < now)
  /\ (expires_at (pk_consent p) = None -> is_expired lib now p = false)
  /\ (forall text, expires_at (pk_consent p) = Some text ->
        fromisoformat lib text = None -> is_expired lib now p = false)
  /\ (forall text wall, expires_at (pk_consent p) = Some text ->
        fromisoformat lib text = Some (Naive wall) -> is_expired lib now p = false).
Proof.
  split; [split|].
  - apply is_expired_true_inv.
  - intros (text & expiry & He & Hne & Hp & Hlt).
    rewrite (is_expired_aware now p text expiry) by assumption. lia.
  - unfold is_expired. repeat split.
    + now intros ->.
    + intros text -> ->. now destruct (String.eqb text "").
    + intros text wall -> ->. now destruct (String.eqb text "").
Qed.

Lemma split_colon_spec target :
  has_colon target = true ->
  target = String.append (split_colon target).1 (String ":" (split_colon target).2)
  /\ has_colon (split_colon target).1 = false.
Proof.
  induction target as [|c r IH]; simpl; [discriminate|].
  destruct (Ascii.eqb_spec c ":") as [->|Hc]; simpl; [auto|].
  intros Hr. destruct (IH Hr) as [Heq Hn]. destruct (split_colon r) as [a b]. simpl in *.
  split; [rewrite Heq at 1; reflexivity|].
  destruct (Ascii.eqb_spec c ":"); [contradiction|assumption].
Qed.

Lemma split_colon_unique name ident :
  has_colon name = false ->
  split_colon (String.append name (String ":" ident)) = (name, ident)
  /\ has_colon (String.append name (String ":" ident)) = true.
Proof.
  induction name as [|c r IH]; simpl; [auto|].
  destruct (Ascii.eqb c ":"); [discriminate|].
  intros Hr. destruct (IH Hr) as [-> ->]. auto.
Qed.

Lemma str_in_In x l : str_in x l = true <-> In x l.
Proof.
  unfold str_in. rewrite existsb_exists. split.
  - intros (y & Hy & Heq). apply String.eqb_eq in Heq. now subst.
  - intros H. exists x. split; [assumption|apply String.eqb_refl].
Qed.

Lemma scope_allows_spec scope c :
  scope_allows scope c = true <-> scope_passes scope c.
Proof.
  destruct scope as [s|]; simpl; [|tauto].
  destruct (String.eqb_spec s "") as [->|Hne].
  - tauto.
  - rewrite str_in_In. tauto.
Qed.

Lemma scan_targets_spec recipient scope c ts :
  scan_targets (lower recipient) scope c ts = true <->
  (exists target, In target ts /\ target_matches recipient target) /\ scope_passes scope c.
Proof.
  induction ts as [|target rest IH]; simpl.
  - split; [discriminate|]. intros [(t & [] & _) _].
  - assert (Hhere : forall b : bool,
               (b = true <-> target_matches recipient target) ->
               ((if b then scope_allows scope c
                 else scan_targets (lower recipient) scope c rest) = true <->
                (exists t, (target = t \/ In t rest) /\ target_matches recipient t)
                /\ scope_passes scope c)).
    { intros b Hb. destruct b.
      - rewrite scope_allows_spec. split.
        + intros Hs. split; [|assumption]. exists target. split; [now left|now apply Hb].
        + tauto.
      - rewrite IH. split.
        + intros [(t & Hin & Hm) Hs]. split; [|assumption]. exists t. auto.
        + intros [(t & [<-|Hin] & Hm) Hs].
          * apply Hb in Hm. discriminate.
          * split; [|assumption]. exists t. auto. }
    destruct (has_colon target) eqn:Hcol.
    + destruct (split_colon_spec target Hcol) as [Heq Hname].
      destruct (split_colon target) as [name ident] eqn:Hsp. simpl in Heq, Hname.
      apply Hhere. rewrite orb_true_iff, !String.eqb_eq. split.
      * intros Hor. right. exists name, ident. auto.
      * intros [[Hno _]|(n' & i' & Heq' & Hn' & Hor)]; [congruence|].
        destruct (split_colon_unique n' i' Hn') as [Hsp' _].
        rewrite <- Heq', Hsp in Hsp'. now inversion Hsp'; subst.
    + apply Hhere. rewrite String.eqb_eq. split.
      * intros Heq. left. auto.
      * intros [[_ Heq]|(n' & i' & Heq' & Hn' & _)]; [assumption|].
        destruct (split_colon_unique n' i' Hn') as [_ Hc']. congruence.
Qed.

(** C4 (as amended).  An expired consent gives false whatever the public
    flag and the targets; a public packet is shared exactly when the
    scope test passes; otherwise the packet is shared exactly when some
    target matches the recipient and the scope test passes (the test does
    not depend on the target, so stopping at the first match changes
    nothing).  The scope test passes when no scope is given, when the
    scope given is the empty string, or when it is one of the packet's
    scopes. *)
Theorem can_share_with_spec now p recipient scope :
  (is_expired lib now p = true -> can_share_with lib now p recipient scope = false)
  /\ (is_expired lib now p = false -> public (pk_consent p) = true ->
      (can_share_with lib now p recipient scope = true <->
       scope_passes scope (pk_consent p)))
  /\ (is_expired lib now p = false -> public (pk_consent p) = false ->
      (can_share_with lib now p recipient scope = true <->
       (exists target, In target (targets (pk_consent p))
                       /\ target_matches recipient target)
       /\ scope_passes scope (pk_consent p))).
Proof.
  unfold can_share_with. repeat split.
  - now intros ->.
  - rewrite H, H0. apply scope_allows_spec.
  - rewrite H, H0. apply scope_allows_spec.
  - rewrite H, H0 in H1. now apply scan_targets_spec in H1.
  - rewrite H, H0 in H1. now apply scan_targets_spec in H1.
  - rewrite H, H0. intros Hx. now apply scan_targets_spec.
Qed.

End Consent.

(** ** Concrete runs of the consent engine *)

(** C9, as first stated, fails on a timestamp without UTC offset: the text
    is a valid ISO-8601 timestamp, the current instant (2026-11-03) is
    years past it, and [is_expired] answers false. *)
Lemma is_expired_naive_counterexample :
  fromisoformat Sample.lib "2020-01-01T00:00:00" = Some (Naive 1577836800000000)
  /\ 1577836800000000 < 1793700000000000
  /\ is_expired Sample.lib 1793700000000000
       {| pk_id := "cp_1"; pk_type := SESSION; pk_priority := MEDIUM;
          pk_content := JDict []; pk_metadata := 1%positive;
          pk_consent := {| public := true; targets := []; scopes := ["read"%string];
                           expires_at := Some "2020-01-01T00:00:00"%string |} |}
     = false.
Proof. repeat split; vm_compute; reflexivity. Qed.

(** C4, as first stated, fails on an empty scope: the scope is given, it
    is not one of the packet's scopes, and the public packet is shared. *)
Lemma can_share_with_empty_scope_counterexample :
  can_share_with Sample.lib 0
     {| pk_id := "cp_1"; pk_type := IDENTITY; pk_priority := CRITICAL;
        pk_content := JDict []; pk_metadata := 1%positive;
        pk_consent := {| public := true; targets := [];
                         scopes := ["read"%string; "quote"%string];
                         expires_at := None |} |}
     "anyone" (Some ""%string) = true
  /\ ~ In ""%string ["read"%string; "quote"%string].
Proof.
  split; [reflexivity|]. intros [H|[H|[]]]; discriminate.
Qed.

(** ** The heap *)

Lemma deref_insert_eq (h : Heap) l m : deref (<[l := m]> h) l = m.
Proof. unfold deref. now rewrite lookup_insert_eq. Qed.

Lemma deref_insert_ne (h : Heap) l l' m : l <> l' -> deref (<[l := m]> h) l' = deref h l'.
Proof. intros Hne. unfold deref. now rewrite lookup_insert_ne. Qed.

Lemma fresh_not_allocated (h : Heap) : h !! fresh (dom h) = None.
Proof. apply not_elem_of_dom, is_fresh. Qed.

Lemma deref_fresh (h : Heap) : deref h (fresh (dom h)) = ∅.
Proof. unfold deref. now rewrite fresh_not_allocated. Qed.

Lemma is_empty_dict_false (m : gmap string json) k v :
  m !! k = Some v -> is_empty_dict m = false.
Proof.
  intros Hk. unfold is_empty_dict. apply bool_decide_eq_false.
  intros He. apply dom_empty_inv_L in He. subst. now rewrite lookup_empty in Hk.
Qed.

(** ** The constructor and [from_dict] *)

Section Constructor.
Context (lib : PyLib).

Lemma auto_populate_created clk content m :
  auto_populate lib clk content m !! "created" = Some (JStr (now_iso clk)).
Proof. unfold auto_populate. now simplify_map_eq. Qed.

Lemma auto_populate_version clk content m :
  auto_populate lib clk content m !! "version" = Some (JStr "2.3.0").
Proof. unfold auto_populate. now simplify_map_eq. Qed.

Lemma auto_populate_token_count clk content m :
  auto_populate lib clk content m !! "token_count"
  = Some (JInt (_estimate_tokens lib content)).
Proof. unfold auto_populate. now simplify_map_eq. Qed.

Lemma auto_populate_checksum clk content m :
  auto_populate lib clk content m !! "checksum"
  = Some (JStr (_calculate_checksum lib content)).
Proof. unfold auto_populate. now simplify_map_eq. Qed.

Lemma auto_populate_other clk content m k :
  k <> "created"%string -> k <> "version"%string ->
  k <> "token_count"%string -> k <> "checksum"%string ->
  auto_populate lib clk content m !! k = m !! k.
Proof. intros. unfold auto_populate. now simplify_map_eq. Qed.

Lemma init_eq clk t content priority metadata consent h :
  __init__ lib clk t content priority metadata consent h
  = ({| pk_id := _generate_id lib clk; pk_type := t; pk_priority := priority;
        pk_content := content; pk_metadata := init_loc metadata h;
        pk_consent := init_consent consent |},
     <[init_loc metadata h :=
         auto_populate lib clk content (deref h (init_loc metadata h))]> h).
Proof.
  unfold __init__, init_loc, alloc.
  destruct metadata as [l|]; [destruct (is_empty_dict (deref h l))|]; simpl;
    rewrite ?deref_insert_eq, ?insert_insert_eq, ?deref_fresh; reflexivity.
Qed.

Lemma init_loc_cases metadata h :
  (exists l, metadata = Some l /\ init_loc metadata h = l
             /\ is_empty_dict (deref h l) = false)
  \/ (init_loc metadata h = fresh (dom h)).
Proof.
  unfold init_loc. destruct metadata as [l|]; [|now right].
  destruct (is_empty_dict (deref h l)) eqn:He; [now right|left; eauto].
Qed.

(** What [from_dict] answers, case by case. *)
Lemma from_dict_ok clk data h t priority content :
  d_type data ≫= PacketType_of_value = Some t ->
  d_priority data ≫= PacketPriority_of_value = Some priority ->
  d_content data = Some content ->
  from_dict lib clk data h
  = (Ok {| pk_id := default (_generate_id lib clk) (d_id data);
           pk_type := t; pk_priority := priority; pk_content := content;
           pk_metadata := init_loc (d_metadata data) h;
           pk_consent := init_consent (d_consent data) |},
     <[init_loc (d_metadata data) h :=
         auto_populate lib clk content (deref h (init_loc (d_metadata data) h))]> h).
Proof.
  intros Ht Hp Hc. unfold from_dict. rewrite Ht, Hp, Hc, init_eq. reflexivity.
Qed.

Lemma from_dict_inv clk data h p h' :
  from_dict lib clk data h = (Ok p, h') ->
  exists t priority content,
    d_type data ≫= PacketType_of_value = Some t /\
    d_priority data ≫= PacketPriority_of_value = Some priority /\
    d_content data = Some content.
Proof.
  unfold from_dict.
  destruct (d_type data ≫= PacketType_of_value) as [t|]; [|discriminate].
  destruct (d_priority data ≫= PacketPriority_of_value) as [pr|]; [|discriminate].
  destruct (d_content data) as [c|]; [|discriminate].
  intros _. exists t, pr, c. auto.
Qed.

Lemma from_dict_raise_heap clk data h e h' :
  from_dict lib clk data h = (Raise e, h') -> h' = h.
Proof.
  unfold from_dict.
  destruct (d_type data ≫= PacketType_of_value) as [t|]; [|now inversion 1].
  destruct (d_priority data ≫= PacketPriority_of_value) as [pr|]; [|now inversion 1].
  destruct (d_content data) as [c|]; [|now inversion 1].
  rewrite init_eq. discriminate.
Qed.

(** A packet just built by [from_dict] always passes [verify_integrity]:
    the constructor has overwritten the checksum it is compared with. *)
Lemma from_dict_verifies clk data h p h' :
  from_dict lib clk data h = (Ok p, h') -> verify_integrity lib p h' = true.
Proof.
  intros Hfd. destruct (from_dict_inv _ _ _ _ _ Hfd) as (t & pr & c & Ht & Hp & Hc).
  rewrite (from_dict_ok _ _ _ _ _ _ Ht Hp Hc) in Hfd. inversion Hfd; subst; clear Hfd.
  unfold verify_integrity. simpl.
  rewrite deref_insert_eq, auto_populate_checksum. apply String.eqb_refl.
Qed.

(** C10.  Whatever metadata the input of [from_dict] carries, the packet
    it returns has [created] set to the clock reading of this call, the
    fixed [version], and [token_count] and [checksum] recomputed from the
    content; of the fields a constructor generates, only the id is taken
    from the input. *)
Theorem from_dict_recomputes_metadata clk data h p h' :
  from_dict lib clk data h = (Ok p, h') ->
  let meta := deref h' (pk_metadata p) in
  meta !! "created" = Some (JStr (now_iso clk))
  /\ meta !! "version" = Some (JStr "2.3.0")
  /\ meta !! "token_count" = Some (JInt (_estimate_tokens lib (pk_content p)))
  /\ meta !! "checksum" = Some (JStr (_calculate_checksum lib (pk_content p)))
  /\ (forall i, d_id data = Some i -> pk_id p = i)
  /\ (d_id data = None -> pk_id p = _generate_id lib clk).
Proof.
  intros Hfd. destruct (from_dict_inv _ _ _ _ _ Hfd) as (t & pr & c & Ht & Hp & Hc).
  rewrite (from_dict_ok _ _ _ _ _ _ Ht Hp Hc) in Hfd. inversion Hfd; subst; clear Hfd.
  simpl. rewrite deref_insert_eq.
  rewrite auto_populate_created, auto_populate_version,
    auto_populate_token_count, auto_populate_checksum.
  repeat split; try reflexivity.
  - now intros i ->.
  - now intros ->.
Qed.

Lemma PacketType_of_value_value t : PacketType_of_value (PacketType_value t) = Some t.
Proof. now destruct t. Qed.

Lemma PacketPriority_of_value_value p :
  PacketPriority_of_value (PacketPriority_value p) = Some p.
Proof. now destruct p. Qed.

Lemma init_consent_to_dict c : init_consent (Some (consent_to_dict c)) = c.
Proof. now destruct c. Qed.

(** C2.  [from_dict] of [to_dict] of any packet succeeds and returns a
    packet with the same id, type, priority, consent and content, which
    passes [verify_integrity]. *)
Theorem from_dict_to_dict_round_trip clk (P : ConsciousnessPacket) (h : Heap) :
  exists P' h',
    from_dict lib clk (to_dict P) h = (Ok P', h')
    /\ pk_id P' = pk_id P
    /\ pk_type P' = pk_type P
    /\ pk_priority P' = pk_priority P
    /\ pk_consent P' = pk_consent P
    /\ pk_content P' = pk_content P
    /\ verify_integrity lib P' h' = true.
Proof.
  assert (Hfd := from_dict_ok clk (to_dict P) h (pk_type P) (pk_priority P) (pk_content P)).
  simpl in Hfd. rewrite PacketType_of_value_value, PacketPriority_of_value_value in Hfd.
  specialize (Hfd eq_refl eq_refl eq_refl).
  eexists _, _. split; [exact Hfd|]. simpl.
  repeat split; [apply init_consent_to_dict|].
  apply (from_dict_verifies _ _ _ _ _ Hfd).
Qed.

End Constructor.

(** ** The receive path *)

Section Receive.
Context (lib : PyLib).

Lemma alloc_subseteq (m : gmap string json) (h : Heap) : h ⊆ (alloc m h).2.
Proof. unfold alloc. simpl. apply insert_subseteq, fresh_not_allocated. Qed.

Lemma load_parsed_subseteq parsed (h : Heap) : h ⊆ (load_parsed parsed h).2.
Proof.
  unfold load_parsed. destruct (d_metadata parsed) as [m|]; [|reflexivity].
  apply (alloc_subseteq m h).
Qed.

Lemma parse_input_raise data h e h0 :
  parse_input lib data h = (Raise e, h0) ->
  h0 = h /\ (e = PacketError InvalidJSON \/ e = PacketError UnsupportedFormat).
Proof.
  unfold parse_input. destruct data as [text|d|].
  - destruct (json_loads lib text) as [parsed|].
    + destruct (load_parsed parsed h). discriminate.
    + inversion 1. auto.
  - discriminate.
  - inversion 1. auto.
Qed.

Lemma parse_input_ok data h d h0 :
  parse_input lib data h = (Ok d, h0) -> h ⊆ h0.
Proof.
  unfold parse_input. destruct data as [text|d'|]; [| |discriminate].
  - destruct (json_loads lib text) as [parsed|]; [|discriminate].
    pose proof (load_parsed_subseteq parsed h) as Hsub.
    destruct (load_parsed parsed h) as [d1 h1]. inversion 1; subst. exact Hsub.
  - inversion 1; subst. reflexivity.
Qed.

Lemma from_dict_raise clk data h e h' :
  from_dict lib clk data h = (Raise e, h') ->
  e = PacketError InvalidHeader \/ e = KeyError "content".
Proof.
  unfold from_dict.
  destruct (d_type data ≫= PacketType_of_value) as [t|]; [|inversion 1; auto].
  destruct (d_priority data ≫= PacketPriority_of_value) as [pr|]; [|inversion 1; auto].
  destruct (d_content data) as [c|]; [|inversion 1; auto].
  rewrite init_eq. discriminate.
Qed.

(** The outcomes of [receive_packet], case by case: a failure before the
    constructor has run (the heap has at most gained parsed objects), an
    expired consent, or success. *)
Lemma receive_packet_cases clk now data self h :
  (exists e h', receive_packet lib clk now data self h = (Raise e, self, h')
                /\ h ⊆ h' /\ e <> IntegrityError /\ e <> ConsentError)
  \/ (exists d h0 p h1,
        parse_input lib data h = (Ok d, h0) /\ from_dict lib clk d h0 = (Ok p, h1)
        /\ ((is_expired lib now p = true
             /\ receive_packet lib clk now data self h = (Raise ConsentError, self, h1))
            \/ (is_expired lib now p = false
                /\ receive_packet lib clk now data self h = (Ok p, accept self p, h1)))).
Proof.
  unfold receive_packet.
  destruct (parse_input lib data h) as [[d|e] h0] eqn:Hparse.
  - destruct (from_dict lib clk d h0) as [[p|e] h1] eqn:Hfd.
    + right. exists d, h0, p, h1. split; [reflexivity|]. split; [exact Hfd|].
      rewrite (from_dict_verifies _ _ _ _ _ _ Hfd). simpl.
      destruct (is_expired lib now p); [left|right]; auto.
    + left. exists e, h1. rewrite (from_dict_raise_heap _ _ _ _ _ _ Hfd).
      split; [reflexivity|]. split; [exact (parse_input_ok _ _ _ _ Hparse)|].
      destruct (from_dict_raise _ _ _ _ _ Hfd) as [->| ->]; split; discriminate.
  - left. exists e, h0. destruct (parse_input_raise _ _ _ _ Hparse) as [-> He].
    split; [reflexivity|]. split; [reflexivity|].
    destruct He as [->| ->]; split; discriminate.
Qed.


End Receive.

(** ** Bounded buffers and tiers *)

Section Buffers.
Context {A : Type}.
Implicit Types l : list A.

Lemma last_n_length n l : List.length (last_n n l) = Nat.min n (List.length l).
Proof. unfold last_n. rewrite length_drop. lia. Qed.

Lemma last_n_short n l : (List.length l <= n)%nat -> last_n n l = l.
Proof. intros Hle. unfold last_n. now replace (List.length l - n)%nat with 0%nat by lia. Qed.

(** Slicing only when the list is too long is the same as slicing. *)
Lemma slice_if_longer n l :
  (if (n <? List.length l)%nat then last_n n l else l) = last_n n l.
Proof.
  destruct (Nat.ltb_spec n (List.length l)); [reflexivity|].
  symmetry. now apply last_n_short.
Qed.

(** Appending to the last [n] and slicing again keeps the last [n] of
    everything appended so far. *)
Lemma last_n_snoc n l x :
  (1 <= n)%nat -> last_n n (last_n n l ++ [x]) = last_n n (l ++ [x]).
Proof.
  intros Hn. unfold last_n at 1 3. rewrite !length_app, last_n_length. simpl.
  destruct (Nat.le_gt_cases (List.length l) n) as [Hle|Hgt].
  - rewrite (last_n_short n l Hle).
    now replace (Nat.min n (List.length l) + 1 - n)%nat
      with (List.length l + 1 - n)%nat by lia.
  - unfold last_n.
    replace (Nat.min n (List.length l) + 1 - n)%nat with 1%nat by lia.
    rewrite drop_app_le by (rewrite length_drop; lia).
    rewrite drop_drop.
    rewrite (drop_app_le l) by lia.
    f_equal. f_equal. lia.
Qed.

Lemma last_n_bound n l : (List.length (last_n n l) <= n)%nat.
Proof. rewrite last_n_length. lia. Qed.

End Buffers.

Lemma prune_incoming self :
  incoming_buffer (_prune_buffers self) = last_n MAX_BUFFER_SIZE (incoming_buffer self).
Proof.
  unfold _prune_buffers. rewrite <- (slice_if_longer MAX_BUFFER_SIZE (incoming_buffer self)).
  destruct (MAX_BUFFER_SIZE <? List.length (incoming_buffer self))%nat; simpl;
    match goal with |- context [if ?b then _ else _] => destruct b end; reflexivity.
Qed.

Lemma prune_outgoing self :
  outgoing_buffer (_prune_buffers self) = last_n MAX_BUFFER_SIZE (outgoing_buffer self).
Proof.
  unfold _prune_buffers. rewrite <- (slice_if_longer MAX_BUFFER_SIZE (outgoing_buffer self)).
  destruct (MAX_BUFFER_SIZE <? List.length (incoming_buffer self))%nat; simpl;
    match goal with |- context [if ?b then _ else _] => destruct b end; reflexivity.
Qed.

Lemma prune_layers self :
  identity_layer (_prune_buffers self) = identity_layer self
  /\ session_memory (_prune_buffers self) = session_memory self
  /\ context_layers (_prune_buffers self) = context_layers self
  /\ max_packet_size (_prune_buffers self) = max_packet_size self
  /\ compression_threshold (_prune_buffers self) = compression_threshold self.
Proof.
  unfold _prune_buffers.
  destruct (MAX_BUFFER_SIZE <? List.length (incoming_buffer self))%nat; simpl;
    match goal with |- context [if ?b then _ else _] => destruct b end; auto.
Qed.

Lemma route_buffers self p :
  incoming_buffer (_route_packet self p) = incoming_buffer self
  /\ outgoing_buffer (_route_packet self p) = outgoing_buffer self.
Proof. unfold _route_packet. destruct (pk_type p); auto. Qed.

Lemma route_identity self p :
  identity_layer (_route_packet self p)
  = if decide (pk_type p = IDENTITY) then Some p else identity_layer self.
Proof. unfold _route_packet. destruct (pk_type p); reflexivity. Qed.

Lemma route_session self p :
  session_memory (_route_packet self p)
  = if decide (pk_type p = SESSION) then last_n 10 (session_memory self ++ [p])
    else session_memory self.
Proof.
  unfold _route_packet. destruct (pk_type p); try reflexivity.
  simpl. apply slice_if_longer.
Qed.

Lemma route_context self p :
  context_layers (_route_packet self p)
  = if decide (pk_type p = CONTEXT) then last_n 20 (context_layers self ++ [p])
    else context_layers self.
Proof.
  unfold _route_packet. destruct (pk_type p); try reflexivity.
  simpl. apply slice_if_longer.
Qed.

Lemma of_type_snoc t l p :
  of_type t (l ++ [p]) = of_type t l ++ (if decide (pk_type p = t) then [p] else []).
Proof.
  unfold of_type. rewrite List.filter_app. simpl.
  destruct (decide (pk_type p = t)) as [He|Hne].
  - now rewrite bool_decide_eq_true_2.
  - now rewrite bool_decide_eq_false_2.
Qed.

Section Runs.
Context (lib : PyLib).

Lemma accept_tails self tr p :
  tails_of_trace {| w_handler := self; w_heap := ∅; w_trace := tr |} ->
  tails_of_trace {| w_handler := accept self p; w_heap := ∅;
                    w_trace := {| received := received tr ++ [p];
                                  emitted := emitted tr |} |}.
Proof.
  unfold tails_of_trace, accept. simpl. intros (Hin & Hout & Hses & Hctx & Hid).
  destruct (prune_layers (with_incoming self (incoming_buffer self ++ [p])))
    as (Hpid & Hpses & Hpctx & _).
  destruct (route_buffers
              (_prune_buffers (with_incoming self (incoming_buffer self ++ [p]))) p)
    as [Hrin Hrout].
  rewrite Hrin, Hrout, route_session, route_context, route_identity.
  rewrite prune_incoming, prune_outgoing, Hpid, Hpses, Hpctx. simpl.
  rewrite !of_type_snoc.
  repeat split.
  - rewrite Hin. apply last_n_snoc. unfold MAX_BUFFER_SIZE. lia.
  - rewrite Hout. apply last_n_short, last_n_bound.
  - destruct (decide (pk_type p = SESSION)).
    + rewrite Hses. apply last_n_snoc. lia.
    + now rewrite app_nil_r.
  - destruct (decide (pk_type p = CONTEXT)).
    + rewrite Hctx. apply last_n_snoc. lia.
    + now rewrite app_nil_r.
  - destruct (decide (pk_type p = IDENTITY)).
    + now rewrite last_snoc.
    + now rewrite app_nil_r.
Qed.

Lemma step_tails w op : tails_of_trace w -> tails_of_trace (step lib w op).
Proof.
  destruct w as [self h tr]. destruct op as [clk clk' t c pr cons|clk now data|ok p].
  - exact (fun H => H).
  - intros Hw. unfold step. simpl.
    destruct (receive_packet_cases lib clk now data self h)
      as [(e & h' & -> & _)|(d & h0 & q & h1 & _ & _ & [[_ ->]|[_ ->]])].
    + exact Hw.
    + exact Hw.
    + apply (accept_tails self tr q) in Hw. exact Hw.
  - unfold tails_of_trace, step, emit_packet. simpl.
    intros (Hin & Hout & Hses & Hctx & Hid).
    destruct (prune_layers (with_outgoing self (outgoing_buffer self ++ [p])))
      as (Hpid & Hpses & Hpctx & _).
    destruct (_persist_packet ok); simpl;
      rewrite prune_incoming, prune_outgoing, Hpid, Hpses, Hpctx; simpl;
      (repeat split; try assumption;
       [ rewrite Hin; apply last_n_short, last_n_bound
       | rewrite Hout; apply last_n_snoc; unfold MAX_BUFFER_SIZE; lia ]).
Qed.

Lemma foldl_step_tails ops w :
  tails_of_trace w -> tails_of_trace (foldl (step lib) w ops).
Proof.
  revert w. induction ops as [|op ops IH]; intros w Hw; simpl; [exact Hw|].
  apply IH, step_tails, Hw.
Qed.

(** C6.  After any sequence of operations on a new handler, each buffer
    is the last 200 packets handed to it (all of them when fewer), session
    memory the last 10 SESSION packets received, the context layers the
    last 20 CONTEXT packets received, and the identity layer the last
    IDENTITY packet received, if any; hence the bounds 200, 200, 10, 20. *)
Theorem run_buffers_hold_most_recent max_size threshold h0 ops :
  let w := run lib max_size threshold h0 ops in
  (incoming_buffer (w_handler w) = last_n 200 (received (w_trace w))
   /\ (List.length (incoming_buffer (w_handler w)) <= 200)%nat)
  /\ (outgoing_buffer (w_handler w) = last_n 200 (emitted (w_trace w))
      /\ (List.length (outgoing_buffer (w_handler w)) <= 200)%nat)
  /\ (session_memory (w_handler w) = last_n 10 (of_type SESSION (received (w_trace w)))
      /\ (List.length (session_memory (w_handler w)) <= 10)%nat)
  /\ (context_layers (w_handler w) = last_n 20 (of_type CONTEXT (received (w_trace w)))
      /\ (List.length (context_layers (w_handler w)) <= 20)%nat)
  /\ identity_layer (w_handler w) = last (of_type IDENTITY (received (w_trace w))).
Proof.
  intros w.
  assert (Hw : tails_of_trace w).
  { apply foldl_step_tails. repeat split. }
  destruct Hw as (Hin & Hout & Hses & Hctx & Hid).
  rewrite Hin, Hout, Hses, Hctx. unfold MAX_BUFFER_SIZE.
  repeat split; try apply last_n_bound. exact Hid.
Qed.

End Runs.

(** ** The factory: size admission and compression *)

Section Factory.
Context (lib : PyLib).

Lemma compress_packet_ok clk' p (h : Heap) d chk size :
  pk_content p = JDict d ->
  deref h (pk_metadata p) !! "checksum" = Some chk ->
  deref h (pk_metadata p) !! "token_count" = Some size ->
  exists q h' key_points,
    _compress_packet lib clk' p h = (Ok q, h')
    /\ pk_content q
       = JDict [("compressed"%string, JBool true);
                ("original_id"%string, JStr (pk_id p));
                ("original_checksum"%string, chk);
                ("original_size"%string, size);
                ("summary"%string, JStr (_summarize_content lib (pk_content p)));
                ("key_points"%string, JList (map JStr key_points))]
    /\ pk_type q = pk_type p /\ pk_priority q = pk_priority p
    /\ pk_consent q = pk_consent p
    /\ pk_metadata q = fresh (dom h)
    /\ deref h' (pk_metadata q) !! "compressed" = Some (JBool true)
    /\ deref h' (pk_metadata q) !! "original_checksum" = Some chk
    /\ h ⊆ h'.
Proof.
  intros Hc Hchk Hsize.
  assert (Hl : pk_metadata p <> fresh (dom h)).
  { intros Heq. rewrite Heq, deref_fresh, lookup_empty in Hchk. discriminate. }
  unfold _compress_packet, getitem. rewrite Hchk, Hsize, Hc. simpl.
  rewrite init_eq. cbn [pk_metadata].
  assert (Hloc : init_loc (Some (fresh (dom h)))
                   (<[fresh (dom h) := deref h (pk_metadata p)]> h) = fresh (dom h)).
  { unfold init_loc. rewrite deref_insert_eq.
    now rewrite (is_empty_dict_false _ _ _ Hchk). }
  rewrite Hloc, !deref_insert_eq, insert_insert_eq.
  rewrite deref_insert_ne by congruence. rewrite Hchk.
  eexists _, _, _. split; [reflexivity|]. cbn [pk_content pk_type pk_priority pk_consent pk_metadata].
  rewrite insert_insert_eq, deref_insert_eq.
  repeat split.
  - apply init_consent_to_dict.
  - now simplify_map_eq.
  - now simplify_map_eq.
  - apply insert_subseteq, fresh_not_allocated.
Qed.

(** The packet the constructor hands to the size checks. *)
Lemma create_packet_unfold self clk clk' t content priority consent (h : Heap) :
  let packet :=
    {| pk_id := _generate_id lib clk; pk_type := t;
       pk_priority := default (priority_map t) priority;
       pk_content := content; pk_metadata := fresh (dom h);
       pk_consent := init_consent consent |} in
  let h1 := <[fresh (dom h) := auto_populate lib clk content ∅]> h in
  create_packet lib self clk clk' t content priority consent h
  = if max_packet_size self <? _estimate_tokens lib content
    then (Raise (PacketError ExceedsMaximumSize), h1)
    else if compression_threshold self <? _estimate_tokens lib content
         then _compress_packet lib clk' packet h1
         else (Ok packet, h1).
Proof.
  unfold create_packet. rewrite init_eq. simpl. rewrite deref_fresh, deref_insert_eq.
  unfold getitem. rewrite auto_populate_token_count. reflexivity.
Qed.

Lemma created_metadata clk content (h : Heap) :
  deref (<[fresh (dom h) := auto_populate lib clk content ∅]> h) (fresh (dom h))
  = auto_populate lib clk content ∅.
Proof. apply deref_insert_eq. Qed.

(** C7.  For a content mapping, [create_packet] raises "Packet exceeds
    maximum size" exactly when the estimate [len(json.dumps(content)) // 4]
    is strictly above [max_packet_size]; with an estimate up to and
    including [max_packet_size] it returns a packet. *)
Theorem create_packet_size_admission self clk clk' t d priority consent (h : Heap) :
  let outcome := (create_packet lib self clk clk' t (JDict d) priority consent h).1 in
  _estimate_tokens lib (JDict d)
    = Z.of_nat (String.length (json_dumps lib (JDict d))) / 4
  /\ (outcome = Raise (PacketError ExceedsMaximumSize)
      <-> max_packet_size self < _estimate_tokens lib (JDict d))
  /\ (_estimate_tokens lib (JDict d) <= max_packet_size self ->
      exists packet, outcome = Ok packet).
Proof.
  intros outcome. subst outcome. rewrite create_packet_unfold.
  split; [reflexivity|].
  destruct (Z.ltb_spec (max_packet_size self) (_estimate_tokens lib (JDict d))) as [Hgt|Hle].
  - split; [tauto|]. lia.
  - destruct (compression_threshold self <? _estimate_tokens lib (JDict d)).
    + edestruct (compress_packet_ok clk'
                   {| pk_id := _generate_id lib clk; pk_type := t;
                      pk_priority := default (priority_map t) priority;
                      pk_content := JDict d; pk_metadata := fresh (dom h);
                      pk_consent := init_consent consent |}
                   (<[fresh (dom h) := auto_populate lib clk (JDict d) ∅]> h))
        as (q & h' & kp & Heq & _).
      * reflexivity.
      * cbn [pk_metadata]. rewrite created_metadata. apply auto_populate_checksum.
      * cbn [pk_metadata]. rewrite created_metadata. apply auto_populate_token_count.
      * rewrite Heq. simpl. split; [|eauto]. split; [discriminate|lia].
    + simpl. split; [|eauto]. split; [discriminate|lia].
Qed.

(** C8.  With an estimate above [compression_threshold] and at most
    [max_packet_size], [create_packet] returns a packet whose content
    holds [compressed: true] with the id, checksum and size of the
    packet first built, and whose metadata holds that checksum under
    [original_checksum] (and [compressed: true]). *)
Theorem create_packet_compresses self clk clk' t d priority consent (h : Heap) :
  compression_threshold self < _estimate_tokens lib (JDict d) ->
  _estimate_tokens lib (JDict d) <= max_packet_size self ->
  exists packet h' key_points,
    create_packet lib self clk clk' t (JDict d) priority consent h = (Ok packet, h')
    /\ pk_content packet
       = JDict [("compressed"%string, JBool true);
                ("original_id"%string, JStr (_generate_id lib clk));
                ("original_checksum"%string, JStr (_calculate_checksum lib (JDict d)));
                ("original_size"%string, JInt (_estimate_tokens lib (JDict d)));
                ("summary"%string, JStr (_summarize_content lib (JDict d)));
                ("key_points"%string, JList (map JStr key_points))]
    /\ _extract_key_points lib (JDict d) = Ok key_points
    /\ deref h' (pk_metadata packet) !! "original_checksum"
       = Some (JStr (_calculate_checksum lib (JDict d)))
    /\ deref h' (pk_metadata packet) !! "compressed" = Some (JBool true).
Proof.
  intros Hthr Hmax. rewrite create_packet_unfold.
  destruct (Z.ltb_spec (max_packet_size self) (_estimate_tokens lib (JDict d))); [lia|].
  destruct (Z.ltb_spec (compression_threshold self) (_estimate_tokens lib (JDict d))); [|lia].
  unfold _compress_packet, getitem. cbn [pk_metadata pk_content].
  rewrite created_metadata, auto_populate_checksum, auto_populate_token_count.
  simpl. rewrite init_eq. cbn [pk_metadata].
  set (l := fresh (dom h)).
  set (h1 := <[l := auto_populate lib clk (JDict d) ∅]> h).
  set (copy := fresh (dom h1)).
  assert (Hl : l <> copy).
  { intros Heq. pose proof (fresh_not_allocated h1) as Hf. fold copy in Hf.
    rewrite <- Heq in Hf. subst h1. rewrite lookup_insert_eq in Hf. discriminate. }
  assert (Hloc : init_loc (Some copy) (<[copy := auto_populate lib clk (JDict d) ∅]> h1) = copy).
  { unfold init_loc. rewrite deref_insert_eq.
    now rewrite (is_empty_dict_false _ _ _ (auto_populate_checksum lib clk (JDict d) ∅)). }
  rewrite Hloc, !deref_insert_eq, insert_insert_eq.
  rewrite deref_insert_ne by congruence.
  subst h1. rewrite deref_insert_eq, auto_populate_checksum.
  eexists _, _, _. split; [reflexivity|].
  cbn [pk_content pk_metadata]. rewrite deref_insert_eq.
  repeat split; now simplify_map_eq.
Qed.

End Factory.

(** ** Sorting and selection *)

Lemma str_leb_total a b : str_leb a b = false -> str_leb b a = true.
Proof.
  revert b. induction a as [|x a IH]; intros [|y b]; simpl; try congruence.
  destruct (Nat.ltb_spec (nat_of_ascii x) (nat_of_ascii y)); [discriminate|].
  destruct (Nat.eqb_spec (nat_of_ascii x) (nat_of_ascii y)) as [Heq|Hne].
  - rewrite Heq, Nat.ltb_irrefl, Nat.eqb_refl. apply IH.
  - intros _. destruct (Nat.ltb_spec (nat_of_ascii y) (nat_of_ascii x)); [reflexivity|lia].
Qed.

Lemma str_leb_trans a b c : str_leb a b = true -> str_leb b c = true -> str_leb a c = true.
Proof.
  revert b c. induction a as [|x a IH]; intros [|y b] [|z c]; simpl; try congruence.
  destruct (Nat.ltb_spec (nat_of_ascii x) (nat_of_ascii y)) as [Hxy|Hxy];
    destruct (Nat.ltb_spec (nat_of_ascii y) (nat_of_ascii z)) as [Hyz|Hyz];
    destruct (Nat.eqb_spec (nat_of_ascii x) (nat_of_ascii y)) as [Exy|Exy];
    destruct (Nat.eqb_spec (nat_of_ascii y) (nat_of_ascii z)) as [Eyz|Eyz];
    destruct (Nat.ltb_spec (nat_of_ascii x) (nat_of_ascii z)) as [Hxz|Hxz];
    destruct (Nat.eqb_spec (nat_of_ascii x) (nat_of_ascii z)) as [Exz|Exz];
    try congruence; try lia.
  apply IH.
Qed.

Lemma key_leb_total a b : key_leb a b = false -> key_leb b a = true.
Proof.
  unfold key_leb. destruct a as [pa ca], b as [pb cb]. simpl.
  destruct (Z.ltb_spec pa pb); [discriminate|].
  destruct (Z.eqb_spec pa pb) as [->|Hne]; simpl.
  - intros Hc. rewrite Z.ltb_irrefl, Z.eqb_refl. simpl. now apply str_leb_total.
  - intros _. destruct (Z.ltb_spec pb pa); [reflexivity|lia].
Qed.

Lemma key_leb_trans a b c : key_leb a b = true -> key_leb b c = true -> key_leb a c = true.
Proof.
  unfold key_leb. destruct a as [pa ca], b as [pb cb], c as [pc cc]. simpl.
  rewrite !orb_true_iff, !andb_true_iff, !Z.ltb_lt, !Z.eqb_eq.
  intros [Hab|[-> Hab]] [Hbc|[-> Hbc]]; [left; lia|left; lia|left; lia|].
  right. split; [reflexivity|]. eapply str_leb_trans; eassumption.
Qed.

Section Sorting.
Context {A : Type}.
Implicit Types (x : (Z * string) * A) (l : list ((Z * string) * A)).

Lemma insert_by_key_Forall (P : (Z * string) * A -> Prop) x l :
  P x -> Forall P l -> Forall P (insert_by_key x l).
Proof.
  intros Hx Hl. induction Hl as [|y l Hy Hl IH]; simpl.
  - auto.
  - destruct (key_leb x.1 y.1); auto.
Qed.

Lemma insert_by_key_sorted x l :
  StronglySorted keys_ascend l -> StronglySorted keys_ascend (insert_by_key x l).
Proof.
  induction 1 as [|y l Hs IH Hy]; simpl.
  - repeat constructor.
  - destruct (key_leb x.1 y.1) eqn:Hxy.
    + constructor; [now constructor|]. constructor; [exact Hxy|].
      eapply Forall_impl; [exact Hy|]. intros z Hz. unfold keys_ascend in *.
      eapply key_leb_trans; eassumption.
    + constructor; [exact IH|]. apply insert_by_key_Forall; [|exact Hy].
      now apply key_leb_total.
Qed.

Lemma sorted_by_key_sorted l : StronglySorted keys_ascend (sorted_by_key l).
Proof.
  induction l as [|x l IH]; simpl; [constructor|]. now apply insert_by_key_sorted.
Qed.

Lemma sorted_by_key_Forall (P : (Z * string) * A -> Prop) l :
  Forall P l -> Forall P (sorted_by_key l).
Proof.
  induction 1 as [|x l Hx Hl IH]; simpl; [constructor|]. now apply insert_by_key_Forall.
Qed.

End Sorting.

Lemma Forall_of_sublist {A} (P : A -> Prop) (l1 l2 : list A) :
  sublist l1 l2 -> Forall P l2 -> Forall P l1.
Proof.
  induction 1 as [|x l1 l2 Hsub IH|x l1 l2 Hsub IH]; intros Hall.
  - constructor.
  - apply Forall_cons in Hall as [Hx Hall]. constructor; auto.
  - apply Forall_cons in Hall as [_ Hall]. auto.
Qed.

Lemma StronglySorted_sublist {A} (R : A -> A -> Prop) (l1 l2 : list A) :
  sublist l1 l2 -> StronglySorted R l2 -> StronglySorted R l1.
Proof.
  induction 1 as [|x l1 l2 Hsub IH|x l1 l2 Hsub IH]; intros Hs.
  - constructor.
  - apply StronglySorted_inv in Hs as [Hs Hall]. constructor; [auto|].
    eapply Forall_of_sublist; eassumption.
  - apply StronglySorted_inv in Hs as [Hs _]. auto.
Qed.

(** ** Context reconstruction *)

Section Reconstruct.
Context (h : Heap).

Lemma before_key_leb a b : before h a b <-> key_leb (key_of h a) (key_of h b) = true.
Proof.
  unfold before, key_leb, key_of. simpl.
  rewrite orb_true_iff, andb_true_iff, Z.ltb_lt, Z.eqb_eq. tauto.
Qed.

Lemma meta_ok_tokens p :
  meta_ok h p ->
  deref h (pk_metadata p) !! "token_count" = Some (JInt (tokens_of h p))
  /\ 0 <= tokens_of h p.
Proof. intros (n & c & Hn & Hpos & _). unfold tokens_of. now rewrite Hn. Qed.

Lemma sort_key_ok p : meta_ok h p -> sort_key h p = Ok (key_of h p).
Proof.
  intros (n & c & _ & _ & Hc). unfold sort_key, key_of, created_of. now rewrite Hc.
Qed.

Lemma token_count_of_ok p : meta_ok h p -> token_count_of h p = Ok (tokens_of h p).
Proof.
  intros Hp. destruct (meta_ok_tokens p Hp) as [Hn _].
  unfold token_count_of, getitem. now rewrite Hn.
Qed.

Lemma keyed_pool_ok pool :
  Forall (meta_ok h) pool ->
  mapR (fun x => bindR (sort_key h x) (fun k => Ok (k, x))) pool
  = Ok (map (fun x => (key_of h x, x)) pool).
Proof.
  induction 1 as [|x pool Hx Hpool IH]; simpl; [reflexivity|].
  now rewrite (sort_key_ok x Hx), IH.
Qed.

Lemma keyed_sorted (l : list ((Z * string) * ConsciousnessPacket)) :
  Forall (fun e => e.1 = key_of h e.2) l ->
  StronglySorted keys_ascend l -> StronglySorted (before h) (map snd l).
Proof.
  intros Hkeys Hs. induction Hs as [|e l Hs IH He]; simpl; [constructor|].
  apply Forall_cons in Hkeys as [Hk Hkeys]. constructor; [auto|].
  apply Forall_map. rewrite Forall_forall in He, Hkeys |- *.
  intros e' Hin. apply before_key_leb.
  rewrite <- Hk, <- (Hkeys e' Hin). apply (He e' Hin).
Qed.

(** The pool as [sorted] leaves it. *)
Lemma sorted_pool_ok pool :
  Forall (meta_ok h) pool ->
  let sorted_pool := map snd (sorted_by_key (map (fun x => (key_of h x, x)) pool)) in
  StronglySorted (before h) sorted_pool /\ Forall (meta_ok h) sorted_pool.
Proof.
  intros Hpool sorted_pool.
  assert (Hall : Forall (fun e : (Z * string) * ConsciousnessPacket =>
                           e.1 = key_of h e.2 /\ meta_ok h e.2)
                        (sorted_by_key (map (fun x => (key_of h x, x)) pool))).
  { apply sorted_by_key_Forall, Forall_map.
    eapply Forall_impl; [exact Hpool|]. simpl. auto. }
  split.
  - apply keyed_sorted; [|apply sorted_by_key_sorted].
    eapply Forall_impl; [exact Hall|]. now intros e [He _].
  - apply Forall_map. eapply Forall_impl; [exact Hall|]. now intros e [_ He].
Qed.

(** The walk over the sorted pool: it returns, what it picks is a
    sub-sequence of the pool, and the picks fit the budget. *)
Lemma select_loop_ok pool :
  Forall (meta_ok h) pool ->
  forall budget,
  exists picks,
    select_loop h pool budget = Ok picks
    /\ sublist (map snd picks) pool
    /\ 0 <= sum_tokens (map (layer_for h) picks) <= Z.max 0 budget.
Proof.
  induction 1 as [|p pool Hp Hpool IH]; intros budget; simpl.
  - exists []. simpl. split; [reflexivity|]. split; [constructor|lia].
  - destruct (meta_ok_tokens p Hp) as [Hn Hpos]. rewrite Hn. simpl.
    destruct (Z.leb_spec (tokens_of h p) budget) as [Hfit|Hbig].
    + destruct (Z.ltb_spec (budget - tokens_of h p) 100).
      * eexists. split; [reflexivity|]. simpl.
        split; [apply sublist_skip, sublist_nil_l|lia].
      * destruct (IH (budget - tokens_of h p)) as (more & -> & Hsub & Hsum). simpl.
        eexists. split; [reflexivity|]. simpl.
        split; [now apply sublist_skip|lia].
    + destruct (Z.ltb_spec budget 100).
      * exists []. simpl. split; [reflexivity|]. split; [apply sublist_nil_l|lia].
      * destruct (IH budget) as (more & -> & Hsub & Hsum). simpl.
        exists more. split; [reflexivity|]. split; [now apply sublist_cons|lia].
Qed.

Lemma layers_ok (picks : list (string * ConsciousnessPacket)) :
  Forall (meta_ok h) (map snd picks) ->
  mapR (layer_of h) picks = Ok (map (layer_for h) picks).
Proof.
  induction picks as [|e picks IH]; simpl; intros Hall; [reflexivity|].
  apply Forall_cons in Hall as [He Hall].
  unfold layer_of at 1. rewrite (token_count_of_ok _ He). simpl. now rewrite IH.
Qed.

Lemma sum_tokens_app a b : sum_tokens (a ++ b) = sum_tokens a + sum_tokens b.
Proof. induction a as [|x a IH]; simpl; lia. Qed.

End Reconstruct.

(** What [reconstruct_context] returns on a store whose packets carry the
    metadata the constructor writes. *)
Lemma reconstruct_context_ok now_text self h B include_identity :
  tiers_ok self h ->
  exists ctx first selected,
    reconstruct_context now_text self h B include_identity = Ok ctx
    /\ layers ctx = first ++ map (layer_for h) selected
    /\ (first = []
        \/ exists identity,
             include_identity = true /\ identity_layer self = Some identity
             /\ first = [ {| layer_type := "identity";
                             layer_content := pk_content identity;
                             layer_tokens := tokens_of h identity |} ])
    /\ sublist (map snd selected)
                (map snd (sorted_by_key (map (fun x => (key_of h x, x))
                                             (session_memory self ++ context_layers self))))
    /\ StronglySorted (before h) (map snd selected)
    /\ sum_tokens (layers ctx) <= Z.max 0 B
    /\ (0 <= B -> sum_tokens (layers ctx) <= B)
    /\ total_tokens ctx = sum_tokens (layers ctx)
    /\ remaining_tokens ctx = B - sum_tokens (layers ctx).
Proof.
  intros [Hpool Hid]. unfold reconstruct_context.
  assert (Hfirst : exists first,
             identity_part self h B include_identity = Ok first
             /\ (first = []
                 \/ exists identity,
                      include_identity = true /\ identity_layer self = Some identity
                      /\ first = [ {| layer_type := "identity";
                                      layer_content := pk_content identity;
                                      layer_tokens := tokens_of h identity |} ])
             /\ 0 <= sum_tokens first <= Z.max 0 B
             /\ (first <> [] -> sum_tokens first <= B)).
  { unfold identity_part. destruct include_identity.
    - destruct (identity_layer self) as [identity|] eqn:Hident.
      + rewrite (token_count_of_ok h identity (Hid identity eq_refl)). simpl.
        destruct (meta_ok_tokens h identity (Hid identity eq_refl)) as [_ Hpos].
        destruct (Z.leb_spec (tokens_of h identity) B).
        * eexists. split; [reflexivity|]. split; [right; eauto|]. simpl. lia.
        * exists []. split; [reflexivity|]. split; [now left|]. simpl. split; [lia|congruence].
      + exists []. split; [reflexivity|]. split; [now left|]. simpl. split; [lia|congruence].
    - exists []. split; [reflexivity|]. split; [now left|]. simpl. split; [lia|congruence]. }
  destruct Hfirst as (first & -> & Hshape & Hsum1 & Hfit). simpl.
  unfold _select_packets_by_priority. rewrite (keyed_pool_ok h _ Hpool). simpl.
  destruct (sorted_pool_ok h _ Hpool) as [Hsorted Hmeta].
  destruct (select_loop_ok h _ Hmeta (B - sum_tokens first))
    as (selected & -> & Hsub & Hsum2). simpl.
  rewrite (layers_ok h selected) by (eapply Forall_of_sublist; eassumption). simpl.
  eexists _, first, selected. split; [reflexivity|]. simpl.
  rewrite sum_tokens_app.
  assert (Hle : sum_tokens first + sum_tokens (map (layer_for h) selected) <= Z.max 0 B).
  { destruct first as [|l first].
    - simpl in *. lia.
    - specialize (Hfit ltac:(discriminate)). lia. }
  repeat split; try assumption; try lia.
  eapply StronglySorted_sublist; eassumption.
Qed.

(** ** Stored metadata along a run *)

Section Metadata.
Context (lib : PyLib).

Lemma estimate_nonneg content : 0 <= _estimate_tokens lib content.
Proof. unfold _estimate_tokens. apply Z.div_pos; lia. Qed.

Lemma meta_ok_allocated (h : Heap) p : meta_ok h p -> is_Some (h !! pk_metadata p).
Proof.
  intros (n & c & Hn & _). unfold deref in Hn.
  destruct (h !! pk_metadata p); [eauto|]. simpl in Hn. now rewrite lookup_empty in Hn.
Qed.

Lemma meta_ok_mono (h h' : Heap) p : h ⊆ h' -> meta_ok h p -> meta_ok h' p.
Proof.
  intros Hsub Hp. destruct (meta_ok_allocated h p Hp) as [m Hm].
  destruct Hp as (n & c & Hn & Hpos & Hc). exists n, c.
  unfold deref in *. rewrite (lookup_weaken _ _ _ _ Hm Hsub). rewrite Hm in Hn, Hc. auto.
Qed.

Lemma meta_ok_here (h : Heap) p clk content m :
  meta_ok (<[pk_metadata p := auto_populate lib clk content m]> h) p.
Proof.
  exists (_estimate_tokens lib content), (now_iso clk).
  rewrite deref_insert_eq, auto_populate_token_count, auto_populate_created.
  split; [reflexivity|]. split; [apply estimate_nonneg|reflexivity].
Qed.

(** A constructor's write keeps every packet's metadata in order, the
    packets that share the written dictionary included. *)
Lemma meta_ok_auto_populate (h : Heap) l clk content m p :
  meta_ok h p -> meta_ok (<[l := auto_populate lib clk content m]> h) p.
Proof.
  intros Hp. destruct (decide (l = pk_metadata p)) as [->|Hne].
  - apply meta_ok_here.
  - destruct Hp as (n & c & Hn & Hpos & Hc). exists n, c.
    now rewrite deref_insert_ne.
Qed.

Lemma meta_ok_mark_compressed (h : Heap) l chk p :
  meta_ok h p ->
  meta_ok (<[l := <["original_checksum" := chk]>
                    (<["compressed" := JBool true]> (deref h l))]> h) p.
Proof.
  intros Hp. destruct (decide (l = pk_metadata p)) as [->|Hne].
  - destruct Hp as (n & c & Hn & Hpos & Hc). exists n, c.
    rewrite deref_insert_eq. now simplify_map_eq.
  - destruct Hp as (n & c & Hn & Hpos & Hc). exists n, c.
    now rewrite deref_insert_ne.
Qed.

Lemma from_dict_heap clk data h p h' :
  from_dict lib clk data h = (Ok p, h') ->
  h' = <[pk_metadata p := auto_populate lib clk (pk_content p) (deref h (pk_metadata p))]> h.
Proof.
  intros Hfd. destruct (from_dict_inv _ _ _ _ _ _ Hfd) as (t & pr & c & Ht & Hp & Hc).
  rewrite (from_dict_ok _ _ _ _ _ _ _ Ht Hp Hc) in Hfd. now inversion Hfd.
Qed.

Lemma compress_packet_keeps clk' q (h : Heap) p :
  meta_ok h p -> meta_ok (_compress_packet lib clk' q h).2 p.
Proof.
  intros Hp. unfold _compress_packet.
  destruct (getitem (deref h (pk_metadata q)) "checksum") as [chk|e]; [|exact Hp].
  destruct (getitem (deref h (pk_metadata q)) "token_count") as [size|e]; [|exact Hp].
  destruct (_extract_key_points lib (pk_content q)) as [kp|e]; [|exact Hp].
  unfold alloc. rewrite init_eq. cbn [pk_metadata].
  match goal with
  | |- context [getitem (deref ?h2 (pk_metadata q)) "checksum"] =>
      assert (H2 : meta_ok h2 p)
  end.
  { apply meta_ok_auto_populate.
    eapply meta_ok_mono; [|exact Hp]. apply insert_subseteq, fresh_not_allocated. }
  match goal with
  | |- context [getitem ?m "checksum"] => destruct (getitem m "checksum") as [again|e]
  end; simpl; [|exact H2].
  now apply meta_ok_mark_compressed.
Qed.

Lemma create_packet_keeps self clk clk' t content priority consent (h : Heap) p :
  meta_ok h p ->
  meta_ok (create_packet lib self clk clk' t content priority consent h).2 p.
Proof.
  intros Hp. rewrite create_packet_unfold.
  assert (H1 : meta_ok (<[fresh (dom h) := auto_populate lib clk content ∅]> h) p)
    by now apply meta_ok_auto_populate.
  destruct (max_packet_size self <? _estimate_tokens lib content); [exact H1|].
  destruct (compression_threshold self <? _estimate_tokens lib content); [|exact H1].
  now apply compress_packet_keeps.
Qed.

Lemma Forall_last_n {A} (P : A -> Prop) n (l : list A) :
  Forall P l -> Forall P (last_n n l).
Proof. unfold last_n. apply Forall_drop. Qed.

Lemma accept_tiers_ok self q (h : Heap) :
  tiers_ok self h -> meta_ok h q -> tiers_ok (accept self q) h.
Proof.
  intros [Hpool Hid] Hq. apply Forall_app in Hpool as [Hses Hctx].
  unfold accept, tiers_ok.
  destruct (prune_layers (with_incoming self (incoming_buffer self ++ [q])))
    as (Hpid & Hpses & Hpctx & _).
  rewrite route_session, route_context, route_identity, Hpid, Hpses, Hpctx. simpl.
  split.
  - apply Forall_app. split.
    + destruct (decide (pk_type q = SESSION)); [|exact Hses].
      apply Forall_last_n, Forall_app. auto.
    + destruct (decide (pk_type q = CONTEXT)); [|exact Hctx].
      apply Forall_last_n, Forall_app. auto.
  - intros identity. destruct (decide (pk_type q = IDENTITY)); [|apply Hid].
    now inversion 1; subst.
Qed.

Lemma tiers_ok_heap self (h h' : Heap) :
  (forall p, meta_ok h p -> meta_ok h' p) -> tiers_ok self h -> tiers_ok self h'.
Proof.
  intros Hkeep [Hpool Hid]. split.
  - eapply Forall_impl; [exact Hpool|]. exact Hkeep.
  - intros identity Hi. apply Hkeep, Hid, Hi.
Qed.

Lemma step_tiers_ok w op :
  tiers_ok (w_handler w) (w_heap w) ->
  tiers_ok (w_handler (step lib w op)) (w_heap (step lib w op)).
Proof.
  destruct w as [self h tr]. simpl.
  destruct op as [clk clk' t c pr cons|clk now data|ok q]; simpl; intros Hw.
  - eapply tiers_ok_heap; [|exact Hw]. intros p. apply create_packet_keeps.
  - destruct (receive_packet_cases lib clk now data self h)
      as [(e & h' & -> & Hsub & _)
         |(d & h0 & q & h1 & Hparse & Hfd & [[_ ->]|[_ ->]])]; simpl.
    + eapply tiers_ok_heap; [|exact Hw]. intros p. now apply meta_ok_mono.
    + rewrite (from_dict_heap _ _ _ _ _ Hfd).
      eapply tiers_ok_heap; [|exact Hw]. intros p Hp.
      apply meta_ok_auto_populate. eapply meta_ok_mono; [|exact Hp].
      exact (parse_input_ok _ _ _ _ _ Hparse).
    + rewrite (from_dict_heap _ _ _ _ _ Hfd). apply accept_tiers_ok.
      * eapply tiers_ok_heap; [|exact Hw]. intros p Hp.
        apply meta_ok_auto_populate. eapply meta_ok_mono; [|exact Hp].
        exact (parse_input_ok _ _ _ _ _ Hparse).
      * apply meta_ok_here.
  - unfold emit_packet. destruct Hw as [Hpool Hid].
    destruct (prune_layers (with_outgoing self (outgoing_buffer self ++ [q])))
      as (Hpid & Hpses & Hpctx & _).
    destruct (_persist_packet ok); simpl; unfold tiers_ok;
      rewrite Hpid, Hpses, Hpctx; simpl; auto.
Qed.

(** Every store a run reaches carries constructor-written metadata. *)
Lemma run_tiers_ok max_size threshold h0 ops :
  tiers_ok (w_handler (run lib max_size threshold h0 ops))
           (w_heap (run lib max_size threshold h0 ops)).
Proof.
  unfold run.
  assert (Hgen : forall w, tiers_ok (w_handler w) (w_heap w) ->
                           tiers_ok (w_handler (foldl (step lib) w ops))
                                    (w_heap (foldl (step lib) w ops))).
  { induction ops as [|op ops IH]; intros w Hw; simpl; [exact Hw|].
    apply IH, step_tiers_ok, Hw. }
  apply Hgen. split; simpl; [constructor|discriminate].
Qed.

End Metadata.

(** ** Context reconstruction on the stores a run reaches *)

(** C3 (as amended).  On every store reached by a run of operations, and
    for every budget [B], [reconstruct_context] returns: layers whose token
    counts sum to at most [max(B, 0)], hence to at most [B] when [B] is
    not negative; first the identity layer, when included, whatever its
    priority; then the layers of the selected session and context packets,
    which appear in non-decreasing priority value, the earlier [created]
    first within one priority. *)
Theorem reconstruct_context_budget_and_order
    lib max_size threshold h0 ops now_text B include_identity :
  let self := w_handler (run lib max_size threshold h0 ops) in
  let h := w_heap (run lib max_size threshold h0 ops) in
  exists ctx first selected,
    reconstruct_context now_text self h B include_identity = Ok ctx
    /\ layers ctx = first ++ map (layer_for h) selected
    /\ (first = []
        \/ exists identity,
             include_identity = true /\ identity_layer self = Some identity
             /\ first = [ {| layer_type := "identity";
                             layer_content := pk_content identity;
                             layer_tokens := tokens_of h identity |} ])
    /\ sublist (map snd selected)
                (map snd (sorted_by_key (map (fun x => (key_of h x, x))
                                             (session_memory self ++ context_layers self))))
    /\ StronglySorted (before h) (map snd selected)
    /\ sum_tokens (layers ctx) <= Z.max 0 B
    /\ (0 <= B -> sum_tokens (layers ctx) <= B)
    /\ total_tokens ctx = sum_tokens (layers ctx)
    /\ remaining_tokens ctx = B - sum_tokens (layers ctx).
Proof.
  intros self h. apply reconstruct_context_ok. apply run_tiers_ok.
Qed.

(** C3, as first stated, fails twice.  With a negative budget nothing is
    selected, and the sum 0 is above the budget.  With an identity packet
    of priority 4 and a session packet of priority 1 in the store, the
    identity layer still comes first. *)
Lemma reconstruct_context_counterexample :
  match reconstruct_context "t"
          (w_handler (run Sample.lib 8000 4000 ∅ Scenario.two_tiers))
          (w_heap (run Sample.lib 8000 4000 ∅ Scenario.two_tiers)) (-1) true with
  | Ok ctx => sum_tokens (layers ctx) = 0 /\ ~ (sum_tokens (layers ctx) <= -1)
  | Raise _ => False
  end
  /\ option_map (fun p => PacketPriority_value (pk_priority p))
        (identity_layer (w_handler (run Sample.lib 8000 4000 ∅ Scenario.two_tiers)))
     = Some 4
  /\ map (fun p => PacketPriority_value (pk_priority p))
         (session_memory (w_handler (run Sample.lib 8000 4000 ∅ Scenario.two_tiers)))
     = [1]
  /\ match reconstruct_context "t"
            (w_handler (run Sample.lib 8000 4000 ∅ Scenario.two_tiers))
            (w_heap (run Sample.lib 8000 4000 ∅ Scenario.two_tiers)) 1000 true with
     | Ok ctx => map layer_type (layers ctx) = ["identity"%string; "session"%string]
     | Raise _ => False
     end.
Proof.
  vm_compute. repeat split; try reflexivity. intros H. apply H. reflexivity.
Qed.

(** ** The integrity check on the receive path *)

Lemma last_last_n_snoc {A} n (l : list A) x :
  (1 <= n)%nat -> last (last_n n (l ++ [x])) = Some x.
Proof.
  intros Hn. unfold last_n. rewrite length_app. simpl.
  destruct (Nat.le_gt_cases (List.length l + 1) n).
  - replace (List.length l + 1 - n)%nat with 0%nat by lia. simpl. apply last_snoc.
  - rewrite drop_app_le by lia. apply last_snoc.
Qed.

Lemma accept_incoming_last self p : last (incoming_buffer (accept self p)) = Some p.
Proof.
  unfold accept.
  destruct (route_buffers
              (_prune_buffers (with_incoming self (incoming_buffer self ++ [p]))) p)
    as [-> _].
  rewrite prune_incoming. simpl. apply last_last_n_snoc. unfold MAX_BUFFER_SIZE. lia.
Qed.

(** C1 fails on the code.  Take any well-formed packet dictionary (valid
    type and priority, a content, no expiry) whose metadata dictionary
    stores an arbitrary text [forged] as its checksum.  [receive_packet]
    does not raise [IntegrityError]: it returns the packet, appends it to
    the incoming buffer and routes it, because the constructor has replaced
    the stored checksum by the recomputed one before it is compared. *)
Theorem receive_packet_accepts_forged_checksum
    lib clk now self (h : Heap) l forged ident t priority content :
  let data :=
    DataDict {| d_id := Some ident; d_type := Some (PacketType_value t);
                d_priority := Some (PacketPriority_value priority);
                d_content := Some content; d_metadata := Some l;
                d_consent := None |} in
  let h0 : Heap := <[l := {[ "checksum"%string := JStr forged ]}]> h in
  deref h0 l !! "checksum" = Some (JStr forged)
  /\ exists p h',
       receive_packet lib clk now data self h0 = (Ok p, accept self p, h')
       /\ pk_id p = ident /\ pk_type p = t /\ pk_content p = content
       /\ pk_metadata p = l
       /\ last (incoming_buffer (accept self p)) = Some p
       /\ deref h' l !! "checksum" = Some (JStr (_calculate_checksum lib content)).
Proof.
  intros data h0. split.
  { subst h0. rewrite deref_insert_eq. apply lookup_singleton_eq. }
  subst data. unfold receive_packet, parse_input.
  erewrite from_dict_ok; cycle 1.
  - simpl. apply PacketType_of_value_value.
  - simpl. apply PacketPriority_of_value_value.
  - reflexivity.
  - cbn [d_metadata d_id d_consent].
    assert (Hloc : init_loc (Some l) h0 = l).
    { unfold init_loc. subst h0. rewrite deref_insert_eq.
      now rewrite (is_empty_dict_false _ "checksum" (JStr forged)
                     ltac:(apply lookup_singleton_eq)). }
    rewrite Hloc. unfold verify_integrity, is_expired. cbn [pk_metadata pk_content pk_consent].
    rewrite deref_insert_eq, auto_populate_checksum, String.eqb_refl. simpl.
    eexists _, _. split; [reflexivity|]. cbn [pk_id pk_type pk_content pk_metadata].
    repeat split.
    + apply accept_incoming_last.
    + rewrite deref_insert_eq. apply auto_populate_checksum.
Qed.

(** ** A failed receive and the stored packets *)

Section Frame.
Context (lib : PyLib).

Lemma load_parsed_metadata parsed (h : Heap) l :
  d_metadata (load_parsed parsed h).1 = Some l -> h !! l = None.
Proof.
  unfold load_parsed, alloc. destruct (d_metadata parsed) as [m|]; simpl; [|discriminate].
  inversion 1; subst. apply fresh_not_allocated.
Qed.

(** X2.  A receive that fails leaves the handler as it was and does not
    touch any dictionary of the heap, except the one the input dictionary
    itself carries as its metadata. *)
Lemma receive_packet_failure_frame clk now data self (h : Heap) e self' h' :
  receive_packet lib clk now data self h = (Raise e, self', h') ->
  self' = self
  /\ forall l, is_Some (h !! l) ->
               (forall d, data = DataDict d -> d_metadata d <> Some l) ->
               h' !! l = h !! l.
Proof.
  intros Hrecv.
  destruct (receive_packet_cases lib clk now data self h)
    as [(e0 & h0 & Heq & Hsub & _)
       |(d & h0 & p & h1 & Hparse & Hfd & [[_ Heq]|[_ Heq]])];
    rewrite Heq in Hrecv; inversion Hrecv; subst; clear Hrecv.
  - split; [reflexivity|]. intros l [m Hm] _.
    now rewrite Hm, (lookup_weaken _ _ _ _ Hm Hsub).
  - split; [reflexivity|]. intros l [m Hm] Hother.
    pose proof (parse_input_ok _ _ _ _ _ Hparse) as Hsub.
    destruct (from_dict_inv _ _ _ _ _ _ Hfd) as (t & pr & c & Ht & Hp & Hc).
    rewrite (from_dict_ok _ _ _ _ _ _ _ Ht Hp Hc) in Hfd. inversion Hfd; subst; clear Hfd.
    assert (Hne : init_loc (d_metadata d) h0 <> l).
    { destruct (init_loc_cases (d_metadata d) h0) as [(l' & Hmd & -> & _)| ->].
      - intros ->. destruct data as [text|d'|]; simpl in Hparse.
        + destruct (json_loads lib text) as [parsed|]; [|discriminate].
          pose proof (load_parsed_metadata parsed h l) as Hfresh.
          destruct (load_parsed parsed h) as [d1 h1]. inversion Hparse; subst.
          simpl in Hfresh. rewrite (Hfresh Hmd) in Hm. discriminate.
        + inversion Hparse; subst. now apply (Hother d).
        + discriminate.
      - intros Hl. pose proof (fresh_not_allocated h0) as Hf. rewrite Hl in Hf.
        rewrite (lookup_weaken _ _ _ _ Hm Hsub) in Hf. discriminate. }
    rewrite lookup_insert_ne by exact Hne.
    now rewrite Hm, (lookup_weaken _ _ _ _ Hm Hsub).
Qed.

End Frame.

(** C5 fails on the code.  The caller receives a SESSION packet from a
    dictionary whose metadata is the caller's own dictionary object, so
    the stored packet shares that object.  A day later, the consent now
    expired, the same dictionary is received again: the call raises
    [ConsentError] and leaves the handler's buffers and tiers as they
    were, but the constructor inside [from_dict] has already written into
    the shared object, and the stored packet's [created] has changed.
    When the second dictionary is a shallow copy with another content, the
    stored packet's [token_count] and [checksum] change as well, and the
    stored packet no longer passes [verify_integrity]. *)
Theorem receive_expired_rewrites_stored_metadata :
  let w := run Sample.lib 8000 4000 Scenario.heap0
             [Receive Scenario.clkA Scenario.nowA (DataDict Scenario.session_dict)] in
  let '(outcome, self', h') :=
    receive_packet Sample.lib Scenario.clkB Scenario.nowB
                   (DataDict Scenario.session_dict) (w_handler w) (w_heap w) in
  let '(outcome2, self2, h2) :=
    receive_packet Sample.lib Scenario.clkB Scenario.nowB
                   (DataDict Scenario.edited_dict) (w_handler w) (w_heap w) in
  (outcome = Raise ConsentError
   /\ self' = w_handler w
   /\ map pk_metadata (session_memory (w_handler w)) = [1%positive]
   /\ map (created_of (w_heap w)) (session_memory (w_handler w))
      = ["2026-11-03T10:00:00+00:00"%string]
   /\ map (created_of h') (session_memory self')
      = ["2026-11-04T09:00:00+00:00"%string])
  /\ (outcome2 = Raise ConsentError
      /\ self2 = w_handler w
      /\ map (tokens_of (w_heap w)) (session_memory (w_handler w)) = [4]
      /\ map (tokens_of h2) (session_memory self2) = [11]
      /\ map (fun p => verify_integrity Sample.lib p (w_heap w))
             (session_memory (w_handler w)) = [true]
      /\ map (fun p => verify_integrity Sample.lib p h2) (session_memory self2)
         = [false]).
Proof. vm_compute. repeat split. Qed.

(** ** The theorems with a premise, run on concrete inputs *)

(** [create_packet_compresses] on a handler with limits 10 and 2 and a
    content of 6 tokens. *)
Lemma create_packet_compresses_witness :
  (compression_threshold (new_handler 10 2)
     < _estimate_tokens Sample.lib (JDict Scenario.payload)
   /\ _estimate_tokens Sample.lib (JDict Scenario.payload)
      <= max_packet_size (new_handler 10 2))
  /\ exists packet h',
       create_packet Sample.lib (new_handler 10 2) Scenario.clkA Scenario.clkB
                     CONTEXT (JDict Scenario.payload) None None ∅ = (Ok packet, h')
       /\ deref h' (pk_metadata packet) !! "original_checksum"
          = Some (JStr (_calculate_checksum Sample.lib (JDict Scenario.payload)))
       /\ deref h' (pk_metadata packet) !! "compressed" = Some (JBool true).
Proof.
  assert (Hlow : compression_threshold (new_handler 10 2)
                 < _estimate_tokens Sample.lib (JDict Scenario.payload))
    by (vm_compute; reflexivity).
  assert (Hhigh : _estimate_tokens Sample.lib (JDict Scenario.payload)
                  <= max_packet_size (new_handler 10 2))
    by (vm_compute; discriminate).
  split; [split; assumption|].
  destruct (create_packet_compresses Sample.lib (new_handler 10 2)
              Scenario.clkA Scenario.clkB CONTEXT Scenario.payload None None ∅
              Hlow Hhigh)
    as (packet & h' & key_points & Hcreate & _ & _ & Horig & Hflag).
  exists packet, h'. auto.
Defined.

(** [from_dict_recomputes_metadata] on the caller's dictionary of the
    scenario, whose metadata carries no checksum at all. *)
Lemma from_dict_recomputes_metadata_witness :
  exists p h',
    from_dict Sample.lib Scenario.clkA Scenario.session_dict Scenario.heap0 = (Ok p, h')
    /\ deref h' (pk_metadata p) !! "created" = Some (JStr "2026-11-03T10:00:00+00:00")
    /\ deref h' (pk_metadata p) !! "checksum"
       = Some (JStr (_calculate_checksum Sample.lib (pk_content p)))
    /\ pk_id p = "cp_1"%string.
Proof.
  destruct (from_dict Sample.lib Scenario.clkA Scenario.session_dict Scenario.heap0)
    as [[p|e] h'] eqn:Hfd; [|vm_compute in Hfd; discriminate].
  destruct (from_dict_recomputes_metadata Sample.lib Scenario.clkA
              Scenario.session_dict Scenario.heap0 p h' Hfd)
    as (Hcreated & _ & _ & Hchecksum & Hid & _).
  exists p, h'. split; [reflexivity|]. split; [exact Hcreated|].
  split; [exact Hchecksum|]. now apply Hid.
Defined.

(** * Further properties of the code *)

(** ** Rejections of [receive_packet] *)

(** X3.  The rejections of [receive_packet] that happen before a packet is
    built leave the handler and the heap as they were: text that does not
    parse and input of another kind raise [PacketError]; a dictionary with
    a missing or unknown type or priority raises the [PacketError] "Invalid
    packet header", whether or not it has a content; a dictionary with a
    valid header and no content raises a plain [KeyError]. *)
Theorem receive_packet_rejections lib clk now self (h : Heap) :
  (forall text, json_loads lib text = None ->
     receive_packet lib clk now (DataStr text) self h
     = (Raise (PacketError InvalidJSON), self, h))
  /\ receive_packet lib clk now DataOther self h
     = (Raise (PacketError UnsupportedFormat), self, h)
  /\ (forall d,
        d_type d ≫= PacketType_of_value = None
        \/ d_priority d ≫= PacketPriority_of_value = None ->
        receive_packet lib clk now (DataDict d) self h
        = (Raise (PacketError InvalidHeader), self, h))
  /\ (forall d t priority,
        d_type d ≫= PacketType_of_value = Some t ->
        d_priority d ≫= PacketPriority_of_value = Some priority ->
        d_content d = None ->
        receive_packet lib clk now (DataDict d) self h
        = (Raise (KeyError "content"), self, h)).
Proof.
  repeat split.
  - intros text Hnone. unfold receive_packet, parse_input. now rewrite Hnone.
  - intros d Hbad. unfold receive_packet, parse_input, from_dict.
    destruct (d_type d ≫= PacketType_of_value) as [t|]; [|reflexivity].
    destruct Hbad as [Hbad|Hbad]; [discriminate|]. now rewrite Hbad.
  - intros d t priority Ht Hp Hc. unfold receive_packet, parse_input, from_dict.
    now rewrite Ht, Hp, Hc.
Qed.

(** ** Which dictionary a packet built by [from_dict] holds *)

Lemma is_empty_dict_true (m : gmap string json) : is_empty_dict m = true <-> m = ∅.
Proof.
  unfold is_empty_dict. rewrite bool_decide_eq_true. split.
  - apply dom_empty_inv_L.
  - intros ->. apply dom_empty_L.
Qed.

(** X4.  A packet returned by [from_dict] holds the very dictionary object
    the input carries as metadata when that one is not empty, and a new
    object otherwise.  Apart from the four keys the constructor writes,
    that object keeps what it held, and no other object of the heap is
    touched. *)
Theorem from_dict_metadata_object lib clk data (h : Heap) p h' :
  from_dict lib clk data h = (Ok p, h') ->
  (forall l, d_metadata data = Some l -> deref h l <> ∅ -> pk_metadata p = l)
  /\ ((d_metadata data = None
       \/ exists l, d_metadata data = Some l /\ deref h l = ∅) ->
      h !! pk_metadata p = None)
  /\ (forall k, k <> "created"%string -> k <> "version"%string ->
                k <> "token_count"%string -> k <> "checksum"%string ->
                deref h' (pk_metadata p) !! k = deref h (pk_metadata p) !! k)
  /\ (forall l', l' <> pk_metadata p -> h' !! l' = h !! l').
Proof.
  intros Hfd. destruct (from_dict_inv _ _ _ _ _ _ Hfd) as (t & pr & c & Ht & Hp & Hc).
  rewrite (from_dict_ok _ _ _ _ _ _ _ Ht Hp Hc) in Hfd. inversion Hfd; subst; clear Hfd.
  cbn [pk_metadata]. repeat split.
  - intros l Hl Hne. unfold init_loc. rewrite Hl.
    destruct (is_empty_dict (deref h l)) eqn:He; [|reflexivity].
    apply is_empty_dict_true in He. contradiction.
  - intros [Hnone|(l & Hl & Hempty)]; unfold init_loc.
    + rewrite Hnone. apply fresh_not_allocated.
    + rewrite Hl. apply is_empty_dict_true in Hempty. rewrite Hempty.
      apply fresh_not_allocated.
  - intros k H1 H2 H3 H4. rewrite deref_insert_eq. now apply auto_populate_other.
  - intros l' Hne. now rewrite lookup_insert_ne.
Qed.

(** X5.  Text input, and a dictionary without a metadata entry, cannot
    alias anything: whatever the outcome of [receive_packet], every
    dictionary that was in the heap is still there unchanged. *)
Theorem receive_packet_without_shared_metadata
    lib clk now self (h : Heap) text ident type priority content consent :
  h ⊆ (receive_packet lib clk now (DataStr text) self h).2
  /\ h ⊆ (receive_packet lib clk now
            (DataDict {| d_id := ident; d_type := type; d_priority := priority;
                         d_content := content; d_metadata := None;
                         d_consent := consent |}) self h).2.
Proof.
  assert (Hgen : forall data,
             (forall d h0, parse_input lib data h = (Ok d, h0) ->
                forall l, d_metadata d = Some l -> h !! l = None) ->
             h ⊆ (receive_packet lib clk now data self h).2).
  { intros data Hmeta.
    destruct (receive_packet_cases lib clk now data self h)
      as [(e & h1 & -> & Hsub & _)
         |(d & h0 & p & h1 & Hparse & Hfd & Hcase)]; [exact Hsub|].
    assert (Hh1 : h ⊆ h1).
    { pose proof (parse_input_ok _ _ _ _ _ Hparse) as Hsub.
      destruct (from_dict_inv _ _ _ _ _ _ Hfd) as (t & pr & c & Ht & Hp & Hc).
      rewrite (from_dict_ok _ _ _ _ _ _ _ Ht Hp Hc) in Hfd.
      inversion Hfd; subst; clear Hfd.
      apply insert_subseteq_r; [|exact Hsub].
      destruct (init_loc_cases (d_metadata d) h0) as [(l & Hl & -> & _)| ->].
      - exact (Hmeta d h0 Hparse l Hl).
      - eapply lookup_weaken_None; [apply fresh_not_allocated|exact Hsub]. }
    destruct Hcase as [[_ ->]|[_ ->]]; exact Hh1. }
  split; apply Hgen.
  - intros d h0 Hparse l Hl. simpl in Hparse.
    destruct (json_loads lib text) as [parsed|]; [|discriminate].
    pose proof (load_parsed_metadata parsed h l) as Hfresh.
    destruct (load_parsed parsed h) as [d1 h1]. inversion Hparse; subst. auto.
  - intros d h0 Hparse l Hl. simpl in Hparse. inversion Hparse; subst. discriminate.
Qed.

(** ** What [create_packet] leaves in the heap *)

Lemma getitem_ok (m : gmap string json) key v : getitem m key = Ok v -> m !! key = Some v.
Proof. unfold getitem. destruct (m !! key); now inversion 1. Qed.

Lemma compress_packet_facts lib clk' p (h : Heap) :
  h ⊆ (_compress_packet lib clk' p h).2
  /\ forall q, (_compress_packet lib clk' p h).1 = Ok q ->
       h !! pk_metadata q = None
       /\ verify_integrity lib q (_compress_packet lib clk' p h).2 = true
       /\ pk_type q = pk_type p /\ pk_priority q = pk_priority p
       /\ pk_consent q = pk_consent p.
Proof.
  unfold _compress_packet.
  destruct (getitem (deref h (pk_metadata p)) "checksum") as [chk|e] eqn:Hchk;
    [|split; [reflexivity|discriminate]].
  destruct (getitem (deref h (pk_metadata p)) "token_count") as [size|e];
    [|split; [reflexivity|discriminate]].
  destruct (_extract_key_points lib (pk_content p)) as [kp|e];
    [|split; [reflexivity|discriminate]].
  apply getitem_ok in Hchk.
  unfold alloc. rewrite init_eq. cbn [pk_metadata].
  assert (Hloc : init_loc (Some (fresh (dom h)))
                   (<[fresh (dom h) := deref h (pk_metadata p)]> h) = fresh (dom h)).
  { unfold init_loc. rewrite deref_insert_eq.
    now rewrite (is_empty_dict_false _ _ _ Hchk). }
  rewrite Hloc, !deref_insert_eq, !insert_insert_eq.
  match goal with
  | |- context [getitem ?m "checksum"] => destruct (getitem m "checksum") as [again|e]
  end; cbn [fst snd].
  - rewrite insert_insert_eq. split; [apply insert_subseteq, fresh_not_allocated|].
    intros q Hq. inversion Hq; subst; clear Hq. cbn [pk_metadata pk_type pk_priority pk_consent].
    split; [apply fresh_not_allocated|].
    split; [|split; [reflexivity|split; [reflexivity|apply init_consent_to_dict]]].
    unfold verify_integrity. cbn [pk_metadata pk_content].
    rewrite deref_insert_eq.
    rewrite lookup_insert_ne by discriminate. rewrite lookup_insert_ne by discriminate.
    rewrite auto_populate_checksum. apply String.eqb_refl.
  - split; [apply insert_subseteq, fresh_not_allocated|discriminate].
Qed.

Lemma create_packet_facts lib self clk clk' t content priority consent (h : Heap) :
  h ⊆ (create_packet lib self clk clk' t content priority consent h).2
  /\ (forall p, (create_packet lib self clk clk' t content priority consent h).1 = Ok p ->
        h !! pk_metadata p = None
        /\ verify_integrity lib p
             (create_packet lib self clk clk' t content priority consent h).2 = true
        /\ pk_type p = t
        /\ pk_priority p = default (priority_map t) priority
        /\ pk_consent p = init_consent consent).
Proof.
  rewrite create_packet_unfold.
  set (packet := {| pk_id := _generate_id lib clk; pk_type := t;
                    pk_priority := default (priority_map t) priority;
                    pk_content := content; pk_metadata := fresh (dom h);
                    pk_consent := init_consent consent |}).
  set (h1 := <[fresh (dom h) := auto_populate lib clk content ∅]> h).
  assert (Hsub : h ⊆ h1) by apply insert_subseteq, fresh_not_allocated.
  destruct (max_packet_size self <? _estimate_tokens lib content).
  - split; [exact Hsub|discriminate].
  - destruct (compression_threshold self <? _estimate_tokens lib content).
    + destruct (compress_packet_facts lib clk' packet h1) as [Hsub2 Hq].
      split; [etransitivity; eassumption|].
      intros q Hok. destruct (Hq q Hok) as (Hfresh & Hver & Hty & Hpr & Hcons).
      split; [eapply lookup_weaken_None; eassumption|]. auto.
    + split; [exact Hsub|].
      intros p Hok. inversion Hok; subst; clear Hok. cbn [fst snd].
      split; [apply fresh_not_allocated|]. split; [|auto].
      unfold verify_integrity, packet, h1. cbn [pk_metadata pk_content].
      rewrite deref_insert_eq, auto_populate_checksum. apply String.eqb_refl.
Qed.

(** X6.  [create_packet] never writes into a dictionary that exists: what
    was in the heap is there unchanged afterwards, also when the call
    raises.  A packet it returns, compressed or not, holds a new metadata
    object, passes [verify_integrity], and has the type asked for, the
    priority given or else the default of its type, and the consent as the
    constructor completes it.  With an estimate up to both limits the
    packet carries the content itself. *)
Theorem create_packet_fresh_and_verified
    lib self clk clk' t content priority consent (h : Heap) :
  let r := create_packet lib self clk clk' t content priority consent h in
  h ⊆ r.2
  /\ (forall p, r.1 = Ok p ->
        h !! pk_metadata p = None
        /\ verify_integrity lib p r.2 = true
        /\ pk_type p = t
        /\ pk_priority p = default (priority_map t) priority
        /\ pk_consent p = init_consent consent)
  /\ (_estimate_tokens lib content <= compression_threshold self ->
      _estimate_tokens lib content <= max_packet_size self ->
      r.1 = Ok {| pk_id := _generate_id lib clk; pk_type := t;
                  pk_priority := default (priority_map t) priority;
                  pk_content := content; pk_metadata := fresh (dom h);
                  pk_consent := init_consent consent |}).
Proof.
  intros r. subst r.
  destruct (create_packet_facts lib self clk clk' t content priority consent h)
    as [Hsub Hok].
  split; [exact Hsub|]. split; [exact Hok|].
  intros Hthr Hmax. rewrite create_packet_unfold.
  destruct (Z.ltb_spec (max_packet_size self) (_estimate_tokens lib content)); [lia|].
  destruct (Z.ltb_spec (compression_threshold self) (_estimate_tokens lib content)); [lia|].
  reflexivity.
Qed.

(** ** Receiving the dictionary of a live packet *)

Lemma to_dict_from_dict lib clk p (h : Heap) :
  deref h (pk_metadata p) <> ∅ ->
  from_dict lib clk (to_dict p) h
  = (Ok p, <[pk_metadata p :=
               auto_populate lib clk (pk_content p) (deref h (pk_metadata p))]> h).
Proof.
  intros Hlive.
  rewrite (from_dict_ok lib clk (to_dict p) h (pk_type p) (pk_priority p) (pk_content p));
    [|simpl; apply PacketType_of_value_value
     |simpl; apply PacketPriority_of_value_value|reflexivity].
  assert (Hloc : init_loc (d_metadata (to_dict p)) h = pk_metadata p).
  { unfold init_loc. simpl.
    destruct (is_empty_dict (deref h (pk_metadata p))) eqn:He; [|reflexivity].
    apply is_empty_dict_true in He. contradiction. }
  rewrite Hloc. cbn [to_dict d_id d_consent default]. rewrite init_consent_to_dict.
  now destruct p.
Qed.

(** X7.  Receiving [to_dict] of a packet whose metadata dictionary is not
    empty and whose consent has not expired returns that very packet (same
    id, same metadata object, no copy) and stores it: the packet handed in
    and the packet in the store are one and share every later write to the
    metadata. *)
Theorem receive_packet_to_dict lib clk now self p (h : Heap) :
  deref h (pk_metadata p) <> ∅ ->
  is_expired lib now p = false ->
  receive_packet lib clk now (DataDict (to_dict p)) self h
  = (Ok p, accept self p,
     <[pk_metadata p :=
         auto_populate lib clk (pk_content p) (deref h (pk_metadata p))]> h).
Proof.
  intros Hlive Hfresh. unfold receive_packet, parse_input.
  rewrite (to_dict_from_dict lib clk p h Hlive).
  unfold verify_integrity. rewrite deref_insert_eq, auto_populate_checksum, String.eqb_refl.
  simpl. now rewrite Hfresh.
Qed.

(** ** Letter case in the consent engine *)










(** ** Consent over time *)

Lemma is_expired_later lib now now' p :
  now <= now' -> is_expired lib now p = true -> is_expired lib now' p = true.
Proof.
  intros Hle. unfold is_expired.
  destruct (expires_at (pk_consent p)) as [text|]; [|discriminate].
  destruct (String.eqb text ""); [discriminate|].
  destruct (fromisoformat lib text) as [[w|e]|]; try discriminate.
  rewrite !Z.ltb_lt. lia.
Qed.

(** X9.  Consent can lapse with time and never comes back: a packet
    expired at one instant is expired at every later one, and a packet that
    may be shared at some instant could be shared, with the same recipient
    and scope, at every earlier one. *)
Theorem consent_only_lapses lib now now' p recipient scope :
  now <= now' ->
  (is_expired lib now p = true -> is_expired lib now' p = true)
  /\ (can_share_with lib now' p recipient scope = true ->
      can_share_with lib now p recipient scope = true).
Proof.
  intros Hle. split; [now apply is_expired_later|].
  unfold can_share_with.
  destruct (is_expired lib now' p) eqn:Hlater; [discriminate|].
  destruct (is_expired lib now p) eqn:Hnow; [|auto].
  rewrite (is_expired_later lib now now' p Hle Hnow) in Hlater. discriminate.
Qed.

(** ** Filtering for a recipient *)

(** X10.  [filter_packets_for_recipient] keeps the packets in their order,
    keeps exactly those [can_share_with] accepts, so never an expired one,
    and filtering its result again changes nothing. *)
Theorem filter_packets_for_recipient_spec lib now packets recipient scope :
  let kept := filter_packets_for_recipient lib now packets recipient scope in
  sublist kept packets
  /\ (forall p, In p kept <->
                In p packets /\ can_share_with lib now p recipient scope = true)
  /\ Forall (fun p => is_expired lib now p = false) kept
  /\ filter_packets_for_recipient lib now kept recipient scope = kept.
Proof.
  intros kept. subst kept. unfold filter_packets_for_recipient.
  split; [|split; [|split]].
  - induction packets as [|p packets IH]; simpl; [constructor|].
    destruct (can_share_with lib now p recipient scope);
      [now apply sublist_skip|now apply sublist_cons].
  - intros p. apply List.filter_In.
  - apply List.Forall_forall. intros p Hin. apply List.filter_In in Hin as [_ Hshare].
    unfold can_share_with in Hshare.
    destruct (is_expired lib now p); [discriminate|reflexivity].
  - induction packets as [|p packets IH]; simpl; [reflexivity|].
    destruct (can_share_with lib now p recipient scope) eqn:Hp; [|exact IH].
    simpl. now rewrite Hp, IH.
Qed.

(** ** Emitting *)



(** ** Decompression *)

(** X12.  On a packet whose content is a dictionary [decompress_packet]
    never raises.  It returns the content itself when the content is not
    flagged as compressed, when no lookup is given, when the lookup
    raises, or when the placeholder lacks the original id or checksum;
    the only other value it can return is what the lookup answered for the
    id and checksum stored in the placeholder. *)
Theorem decompress_packet_falls_back ident t priority d l consent fetch :
  let p := {| pk_id := ident; pk_type := t; pk_priority := priority;
              pk_content := JDict d; pk_metadata := l; pk_consent := consent |} in
  (exists v, decompress_packet p fetch = Ok v)
  /\ decompress_packet p None = Ok (JDict d)
  /\ (truthy (default JNull (dict_get d "compressed")) = false ->
      decompress_packet p fetch = Ok (JDict d))
  /\ (forall f, fetch = Some f -> (forall a b, exists e, f a b = Raise e) ->
      decompress_packet p fetch = Ok (JDict d))
  /\ (dict_get d "original_id" = None \/ dict_get d "original_checksum" = None ->
      decompress_packet p fetch = Ok (JDict d))
  /\ (forall v, decompress_packet p fetch = Ok v ->
      v = JDict d
      \/ exists f a b,
           fetch = Some f /\ dict_get d "original_id" = Some a
           /\ dict_get d "original_checksum" = Some b /\ f a b = Ok v).
Proof.
  intros p. subst p. unfold decompress_packet. cbn [pk_content].
  destruct (truthy (default JNull (dict_get d "compressed"))) eqn:Hflag; simpl.
  - destruct fetch as [f|].
    + destruct (dict_get d "original_id") as [a|] eqn:Ha;
        [destruct (dict_get d "original_checksum") as [b|] eqn:Hb|].
      * destruct (f a b) as [v|e] eqn:Hf.
        -- repeat split; eauto; try discriminate.
           ++ intros f' Hf' Hraise. inversion Hf'; subst.
              destruct (Hraise a b) as [e He]. congruence.
           ++ intros [?|?]; discriminate.
           ++ intros v' Hv'. inversion Hv'; subst. right. eauto 10.
        -- repeat split; eauto; try discriminate. intros v' Hv'. left. congruence.
      * repeat split; eauto; try discriminate. intros v' Hv'. left. congruence.
      * repeat split; eauto; try discriminate. intros v' Hv'. left. congruence.
    + repeat split; eauto; try discriminate. intros v' Hv'. left. congruence.
  - repeat split; eauto. intros v' Hv'. left. congruence.
Qed.

(** X13.  A packet that [create_packet] has compressed refers back to its
    original: a lookup that answers the original content for the id and
    checksum of the packet first built makes [decompress_packet] return
    that content, while without a lookup it returns the placeholder, which
    is flagged [compressed]. *)
Theorem decompress_packet_recovers_original
    lib self clk clk' t d priority consent (h : Heap) fetch :
  compression_threshold self < _estimate_tokens lib (JDict d) ->
  _estimate_tokens lib (JDict d) <= max_packet_size self ->
  fetch (JStr (_generate_id lib clk)) (JStr (_calculate_checksum lib (JDict d)))
  = Ok (JDict d) ->
  exists q h' placeholder,
    create_packet lib self clk clk' t (JDict d) priority consent h = (Ok q, h')
    /\ pk_content q = JDict placeholder
    /\ dict_get placeholder "compressed" = Some (JBool true)
    /\ decompress_packet q (Some fetch) = Ok (JDict d)
    /\ decompress_packet q None = Ok (JDict placeholder).
Proof.
  intros Hthr Hmax Hfetch. rewrite create_packet_unfold.
  destruct (Z.ltb_spec (max_packet_size self) (_estimate_tokens lib (JDict d))); [lia|].
  destruct (Z.ltb_spec (compression_threshold self) (_estimate_tokens lib (JDict d))); [|lia].
  edestruct (compress_packet_ok lib clk'
               {| pk_id := _generate_id lib clk; pk_type := t;
                  pk_priority := default (priority_map t) priority;
                  pk_content := JDict d; pk_metadata := fresh (dom h);
                  pk_consent := init_consent consent |}
               (<[fresh (dom h) := auto_populate lib clk (JDict d) ∅]> h))
    as (q & h' & kp & Heq & Hcontent & _).
  - reflexivity.
  - cbn [pk_metadata]. rewrite created_metadata. apply auto_populate_checksum.
  - cbn [pk_metadata]. rewrite created_metadata. apply auto_populate_token_count.
  - cbn [pk_id pk_content] in Hcontent.
    eexists q, h', _. split; [exact Heq|]. split; [exact Hcontent|].
    split; [reflexivity|].
    unfold decompress_packet. rewrite Hcontent. simpl. rewrite Hfetch. auto.
Qed.

(** ** Tags *)


(** ** Statistics and tiers along a run *)

Lemma token_count_get_ok (h : Heap) p :
  meta_ok h p -> token_count_get h p = Ok (tokens_of h p).
Proof.
  intros Hp. destruct (meta_ok_tokens h p Hp) as [Hn _].
  unfold token_count_get. now rewrite Hn.
Qed.

Lemma sum_token_counts_ok (h : Heap) l :
  Forall (meta_ok h) l ->
  sum_token_counts h l = Ok (tokens_total h l) /\ 0 <= tokens_total h l.
Proof.
  induction 1 as [|p l Hp Hl [IH Hpos]]; simpl; [split; [reflexivity|lia]|].
  rewrite (token_count_get_ok h p Hp), IH. simpl.
  destruct (meta_ok_tokens h p Hp) as [_ Hp0]. split; [reflexivity|lia].
Qed.

Lemma run_tails lib max_size threshold h0 ops :
  tails_of_trace (run lib max_size threshold h0 ops).
Proof. apply foldl_step_tails. repeat split. Qed.

(** X14.  On every store a run reaches [get_statistics] returns: the
    total is the sum of the five counts, the buffers are within the
    reported limit of 200, the context layers within 20 and the session
    memory within 10, so the total is at most 431; the token total is the
    sum of the stored counts of the context, session and identity packets
    and is never negative. *)
Theorem get_statistics_on_runs lib max_size threshold h0 ops :
  let self := w_handler (run lib max_size threshold h0 ops) in
  let h := w_heap (run lib max_size threshold h0 ops) in
  exists st,
    get_statistics self h = Ok st
    /\ stat_total_packets st
       = (stat_incoming_buffer st + stat_outgoing_buffer st + stat_context_layers st
          + stat_session_memories st + (if stat_has_identity st then 1 else 0))%nat
    /\ stat_buffer_limit st = 200%nat
    /\ (stat_incoming_buffer st <= 200)%nat
    /\ (stat_outgoing_buffer st <= 200)%nat
    /\ (stat_context_layers st <= 20)%nat
    /\ (stat_session_memories st <= 10)%nat
    /\ (stat_total_packets st <= 431)%nat
    /\ stat_total_tokens st
       = tokens_total h (context_layers self ++ session_memory self)
         + match identity_layer self with
           | Some identity => tokens_of h identity
           | None => 0
           end
    /\ 0 <= stat_total_tokens st.
Proof.
  intros self h.
  destruct (run_tiers_ok lib max_size threshold h0 ops) as [Hpool Hid].
  fold self h in Hpool, Hid.
  destruct (run_tails lib max_size threshold h0 ops) as (Hin & Hout & Hses & Hctx & _).
  fold self in Hin, Hout, Hses, Hctx.
  assert (Hpool' : Forall (meta_ok h) (context_layers self ++ session_memory self)).
  { apply Forall_app in Hpool as [Hs Hc]. apply Forall_app. auto. }
  destruct (sum_token_counts_ok h _ Hpool') as [Hsum Hpos].
  unfold get_statistics. rewrite Hsum. cbn [bindR].
  assert (Hbounds : (List.length (incoming_buffer self) <= 200
                     /\ List.length (outgoing_buffer self) <= 200
                     /\ List.length (context_layers self) <= 20
                     /\ List.length (session_memory self) <= 10)%nat).
  { rewrite Hin, Hout, Hses, Hctx. unfold MAX_BUFFER_SIZE.
    repeat split; apply last_n_bound. }
  destruct (identity_layer self) as [identity|] eqn:Hident.
  - rewrite (token_count_get_ok h identity (Hid identity eq_refl)). cbn [bindR].
    destruct (meta_ok_tokens h identity (Hid identity eq_refl)) as [_ Hipos].
    eexists. split; [reflexivity|]. cbn. unfold MAX_BUFFER_SIZE.
    repeat split; try lia.
  - cbn [bindR]. eexists. split; [reflexivity|]. cbn. unfold MAX_BUFFER_SIZE.
    repeat split; try lia.
Qed.

Lemma of_type_Forall t l : Forall (fun p => pk_type p = t) (of_type t l).
Proof.
  apply List.Forall_forall. intros p Hin. apply List.filter_In in Hin as [_ Hp].
  now apply bool_decide_eq_true in Hp.
Qed.

Lemma of_type_In t l : Forall (fun p => In p l) (of_type t l).
Proof.
  apply List.Forall_forall. intros p Hin. now apply List.filter_In in Hin as [Hin _].
Qed.

(** X16.  Along every run each tier holds packets of its own type only,
    and only packets that [receive_packet] has returned: session memory
    SESSION packets, the context layers CONTEXT packets, the identity
    layer an IDENTITY packet.  HANDOVER, SYNC and CHECKPOINT packets are
    in no tier. *)
Theorem tiers_hold_their_type lib max_size threshold h0 ops :
  let w := run lib max_size threshold h0 ops in
  Forall (fun p => pk_type p = SESSION /\ In p (received (w_trace w)))
         (session_memory (w_handler w))
  /\ Forall (fun p => pk_type p = CONTEXT /\ In p (received (w_trace w)))
            (context_layers (w_handler w))
  /\ (forall p, identity_layer (w_handler w) = Some p ->
                pk_type p = IDENTITY /\ In p (received (w_trace w)))
  /\ Forall (fun p => In p (received (w_trace w))) (incoming_buffer (w_handler w)).
Proof.
  intros w. destruct (run_tails lib max_size threshold h0 ops)
    as (Hin & _ & Hses & Hctx & Hid).
  fold w in Hin, Hses, Hctx, Hid.
  assert (Hboth : forall t,
             Forall (fun p => pk_type p = t /\ In p (received (w_trace w)))
                    (of_type t (received (w_trace w)))).
  { intros t. apply Forall_and. split; [apply of_type_Forall|apply of_type_In]. }
  rewrite Hin, Hses, Hctx. repeat split.
  - apply Forall_last_n, Hboth.
  - apply Forall_last_n, Hboth.
  - rewrite Hid in H. apply last_Some_elem_of in H.
    specialize (Hboth IDENTITY). rewrite Forall_forall in Hboth. now apply Hboth.
  - rewrite Hid in H. apply last_Some_elem_of in H.
    specialize (Hboth IDENTITY). rewrite Forall_forall in Hboth. now apply Hboth.
  - apply Forall_last_n. apply List.Forall_forall. auto.
Qed.

(** ** The reserve margin of the selection *)

Lemma identity_part_ok self (h : Heap) B include_identity :
  tiers_ok self h ->
  exists first,
    identity_part self h B include_identity = Ok first
    /\ (List.length first <= 1)%nat
    /\ 0 <= sum_tokens first
    /\ (include_identity = false -> first = []).
Proof.
  intros [_ Hid]. unfold identity_part. destruct include_identity.
  - destruct (identity_layer self) as [identity|] eqn:Hident.
    + rewrite (token_count_of_ok h identity (Hid identity eq_refl)). simpl.
      destruct (meta_ok_tokens h identity (Hid identity eq_refl)) as [_ Hpos].
      destruct (tokens_of h identity <=? B); eexists; (split; [reflexivity|]);
        simpl; repeat split; try lia; discriminate.
    + exists []. simpl. repeat split; lia.
  - exists []. simpl. repeat split; lia.
Qed.

Lemma select_loop_small (h : Heap) pool budget :
  Forall (meta_ok h) pool -> budget < 100 ->
  exists picks, select_loop h pool budget = Ok picks
                /\ (List.length picks <= 1)%nat
                /\ Forall (meta_ok h) (map snd picks).
Proof.
  intros Hpool Hsmall. destruct Hpool as [|p pool Hp Hpool]; simpl.
  - exists []. repeat split; [simpl; lia|constructor].
  - destruct (meta_ok_tokens h p Hp) as [Hn Hpos]. rewrite Hn. simpl.
    destruct (Z.leb_spec (tokens_of h p) budget).
    + destruct (Z.ltb_spec (budget - tokens_of h p) 100); [|lia].
      eexists. split; [reflexivity|]. simpl. split; [lia|]. repeat constructor. exact Hp.
    + destruct (Z.ltb_spec budget 100); [|lia].
      exists []. repeat split; [simpl; lia|constructor].
Qed.

(** X15.  With a budget below 100 the selection stops after the first
    packet of the sorted pool, taken or not: on every store a run reaches,
    [reconstruct_context] then returns at most one session or context
    layer, however many packets would fit, besides the identity layer
    when that is included. *)
Theorem reconstruct_context_reserve_margin
    lib max_size threshold h0 ops now_text B include_identity :
  B < 100 ->
  let self := w_handler (run lib max_size threshold h0 ops) in
  let h := w_heap (run lib max_size threshold h0 ops) in
  exists ctx,
    reconstruct_context now_text self h B include_identity = Ok ctx
    /\ (List.length (layers ctx) <= 2)%nat
    /\ (include_identity = false -> (List.length (layers ctx) <= 1)%nat).
Proof.
  intros Hsmall self h.
  pose proof (run_tiers_ok lib max_size threshold h0 ops) as Hok. fold self h in Hok.
  destruct (identity_part_ok self h B include_identity Hok)
    as (first & Hfirst & Hlen & Hpos & Hnone).
  destruct Hok as [Hpool _].
  unfold reconstruct_context. rewrite Hfirst. cbn [bindR].
  unfold _select_packets_by_priority. rewrite (keyed_pool_ok h _ Hpool). cbn [bindR].
  destruct (sorted_pool_ok h _ Hpool) as [_ Hmeta].
  destruct (select_loop_small h _ (B - sum_tokens first) Hmeta ltac:(lia))
    as (picks & -> & Hone & Hpicks). cbn [bindR].
  rewrite (layers_ok h picks Hpicks). cbn [bindR].
  eexists. split; [reflexivity|]. cbn [layers].
  rewrite length_app, length_map. split; [lia|].
  intros Hoff. rewrite (Hnone Hoff). simpl. lia.
Qed.

(** ** Handover packets *)

(** X18.  On every store a run reaches, [create_handover_packet] touches
    no dictionary that exists, and a packet it returns is a HANDOVER packet
    of HIGH priority with the default consent, a new metadata object and a
    valid checksum.  While no identity packet is stored the call either
    returns such a packet or raises "Packet exceeds maximum size"; within
    both limits the packet carries the handover content itself, whose
    context was reconstructed within the given budget. *)
Theorem create_handover_packet_spec
    lib max_size threshold h0 ops now_text context_now clk clk'
    from_provider to_provider session_data context_budget :
  let self := w_handler (run lib max_size threshold h0 ops) in
  let h := w_heap (run lib max_size threshold h0 ops) in
  let r := create_handover_packet lib self now_text context_now clk clk'
             from_provider to_provider session_data context_budget h in
  h ⊆ r.2
  /\ (forall p, r.1 = Ok p ->
        pk_type p = HANDOVER /\ pk_priority p = HIGH
        /\ pk_consent p = default_consent
        /\ h !! pk_metadata p = None
        /\ verify_integrity lib p r.2 = true)
  /\ (identity_layer self = None ->
      exists context,
        reconstruct_context context_now self h context_budget true = Ok context
        /\ sum_tokens (layers context) <= Z.max 0 context_budget
        /\ ((exists p, r.1 = Ok p) \/ r.1 = Raise (PacketError ExceedsMaximumSize))
        /\ let content :=
             handover_content from_provider to_provider now_text session_data
               (context_to_json context)
               (JDict [("name"%string, JStr "Unknown"); ("signature"%string, JNull);
                       ("traits"%string, JList [])]) in
           (_estimate_tokens lib content <= compression_threshold self ->
            _estimate_tokens lib content <= max_packet_size self ->
            exists p, r.1 = Ok p /\ pk_content p = content)).
Proof.
  intros self h r. subst r. unfold create_handover_packet.
  pose proof (run_tiers_ok lib max_size threshold h0 ops) as Hok. fold self h in Hok.
  destruct (reconstruct_context_ok context_now self h context_budget true Hok)
    as (context & first & selected & Hctx & _ & _ & _ & _ & Hsum & _).
  rewrite Hctx.
  split; [|split].
  - destruct (_get_minimal_anchors self h) as [anchors|e]; [|reflexivity].
    apply create_packet_facts.
  - intros p Hp. destruct (_get_minimal_anchors self h) as [anchors|e]; [|discriminate].
    match type of Hp with
    | (create_packet ?l ?s ?c ?c' ?t ?content ?pr ?cons ?hh).1 = _ =>
        destruct (create_packet_facts l s c c' t content pr cons hh) as [_ Hfacts]
    end.
    destruct (Hfacts p Hp) as (Hfresh & Hver & Hty & Hpr & Hcons). auto.
  - intros Hnone. exists context. split; [reflexivity|]. split; [exact Hsum|].
    unfold _get_minimal_anchors. rewrite Hnone. unfold handover_content.
    rewrite create_packet_unfold.
    match goal with
    | |- context [max_packet_size self <? ?est] => set (estimate := est)
    end.
    destruct (Z.ltb_spec (max_packet_size self) estimate) as [Hbig|Hfit].
    + split; [now right|]. cbv zeta. lia.
    + destruct (Z.ltb_spec (compression_threshold self) estimate) as [Hcomp|Hplain].
      * split; [|cbv zeta; lia].
        left.
        match goal with
        | |- context [_compress_packet lib clk' ?packet ?h1] =>
            edestruct (compress_packet_ok lib clk' packet h1)
              as (q & h' & kp & Heq & _)
        end.
        -- reflexivity.
        -- cbn [pk_metadata]. rewrite created_metadata. apply auto_populate_checksum.
        -- cbn [pk_metadata]. rewrite created_metadata. apply auto_populate_token_count.
        -- rewrite Heq. eauto.
      * split; [left; eauto|]. cbv zeta. intros _ _. eauto.
Qed.

(** ** What an accepted packet does to the store *)

(** X19.  A packet that [receive_packet] returns had not expired at the
    instant of the call and passes [verify_integrity]; it is the last entry
    of the incoming buffer; an IDENTITY packet replaces the identity layer,
    a SESSION or CONTEXT packet is appended to its tier, which is cut to
    its last 10 or 20 whatever its length was, and a HANDOVER, SYNC or
    CHECKPOINT packet changes no tier. *)
Theorem receive_packet_accepted lib clk now data self (h : Heap) p self' h' :
  receive_packet lib clk now data self h = (Ok p, self', h') ->
  is_expired lib now p = false
  /\ verify_integrity lib p h' = true
  /\ last (incoming_buffer self') = Some p
  /\ outgoing_buffer self' = last_n 200 (outgoing_buffer self)
  /\ identity_layer self'
     = (if decide (pk_type p = IDENTITY) then Some p else identity_layer self)
  /\ session_memory self'
     = (if decide (pk_type p = SESSION) then last_n 10 (session_memory self ++ [p])
        else session_memory self)
  /\ context_layers self'
     = (if decide (pk_type p = CONTEXT) then last_n 20 (context_layers self ++ [p])
        else context_layers self).
Proof.
  intros Hrecv.
  destruct (receive_packet_cases lib clk now data self h)
    as [(e & h1 & Heq & _)|(d & h0 & q & h1 & _ & Hfd & [[_ Heq]|[Hnot Heq]])];
    rewrite Heq in Hrecv; inversion Hrecv; subst; clear Hrecv.
  split; [exact Hnot|]. split; [exact (from_dict_verifies _ _ _ _ _ _ Hfd)|].
  split; [apply accept_incoming_last|].
  unfold accept.
  destruct (prune_layers (with_incoming self (incoming_buffer self ++ [p])))
    as (Hpid & Hpses & Hpctx & _).
  destruct (route_buffers
              (_prune_buffers (with_incoming self (incoming_buffer self ++ [p]))) p)
    as [_ Hrout].
  rewrite Hrout, route_identity, route_session, route_context, prune_outgoing,
    Hpid, Hpses, Hpctx.
  repeat split.
Qed.

(** ** The default consent *)

(** X20.  A packet created without a consent argument carries the default
    consent (not public, no targets, scope "read", no expiry) and can be
    shared with no recipient, at no instant and under no scope. *)
Theorem create_packet_default_consent_is_private
    lib self clk clk' t content priority (h : Heap) p now recipient scope :
  (create_packet lib self clk clk' t content priority None h).1 = Ok p ->
  pk_consent p = default_consent
  /\ can_share_with lib now p recipient scope = false.
Proof.
  intros Hok.
  destruct (create_packet_facts lib self clk clk' t content priority None h) as [_ Hfacts].
  destruct (Hfacts p Hok) as (_ & _ & _ & _ & Hcons). simpl in Hcons.
  split; [exact Hcons|]. unfold can_share_with, is_expired. now rewrite Hcons.
Qed.

(** ** Packet ids *)

Lemma has_underscore_cons c s :
  has_underscore (String c s) = if Ascii.eqb c "_" then true else has_underscore s.
Proof. reflexivity. Qed.

Lemma append_cons c a b : String.append (String c a) b = String c (String.append a b).
Proof. reflexivity. Qed.

Lemma append_underscore_inj a b x y :
  has_underscore a = false -> has_underscore b = false ->
  String.append a (String "_" x) = String.append b (String "_" y) -> a = b.
Proof.
  revert b. induction a as [|c a IH]; intros [|c' b];
    rewrite ?append_cons, ?has_underscore_cons; intros Ha Hb Heq.
  - reflexivity.
  - change (String "_" x = String c' (String.append b (String "_" y))) in Heq.
    inversion Heq; subst. now rewrite Ascii.eqb_refl in Hb.
  - change (String c (String.append a (String "_" x)) = String "_" y) in Heq.
    inversion Heq; subst. now rewrite Ascii.eqb_refl in Ha.
  - inversion Heq; subst.
    destruct (Ascii.eqb c' "_"); [discriminate|]. f_equal. eapply IH; eassumption.
Qed.

Lemma pretty_N_char_no_underscore x : Ascii.eqb (pretty_N_char x) "_" = false.
Proof. unfold pretty_N_char. repeat case_match; reflexivity. Qed.

Lemma pretty_N_go_no_underscore x s :
  has_underscore s = false -> has_underscore (pretty_N_go x s) = false.
Proof.
  revert s. induction (N.lt_wf_0 x) as [x _ IH]; intros s Hs.
  destruct (decide (0 < x)%N) as [Hpos|Hzero].
  - rewrite pretty_N_go_step by exact Hpos.
    apply IH; [now apply N.div_lt|].
    rewrite has_underscore_cons. now rewrite pretty_N_char_no_underscore.
  - replace x with 0%N by lia. now rewrite pretty_N_go_0.
Qed.

Lemma pretty_N_no_underscore (n : N) : has_underscore (pretty n) = false.
Proof.
  unfold pretty, pretty_N. destruct (decide (n = 0%N)); [reflexivity|].
  now apply pretty_N_go_no_underscore.
Qed.

Lemma pretty_Z_no_underscore (z : Z) : has_underscore (pretty z) = false.
Proof.
  destruct z as [|q|q].
  - reflexivity.
  - apply (pretty_N_no_underscore (Npos q)).
  - change (pretty (Zneg q)) with (String "-" (pretty (Npos q))).
    rewrite has_underscore_cons. apply (pretty_N_no_underscore (Npos q)).
Qed.

(** X21.  The id of a packet determines the clock reading it was built
    at: two constructor calls at different readings of [time.time_ns()]
    give different ids, whatever the digest. *)
Theorem generate_id_injective lib clk clk' :
  _generate_id lib clk = _generate_id lib clk' -> time_ns clk = time_ns clk'.
Proof.
  unfold _generate_id. intros Heq.
  change (String "c" (String "p" (String "_"
            (String.append (pretty (time_ns clk))
               (String "_" (str_prefix 8 (md5_hexdigest lib (pretty (time_ns clk))))))))
          = String "c" (String "p" (String "_"
            (String.append (pretty (time_ns clk'))
               (String "_" (str_prefix 8 (md5_hexdigest lib (pretty (time_ns clk'))))))))) in Heq.
  injection Heq as Heq.
  apply append_underscore_inj in Heq; try apply pretty_Z_no_underscore.
  now apply (inj pretty) in Heq.
Qed.

(** ** From a dictionary and back *)

Lemma PacketType_of_value_inv v t : PacketType_of_value v = Some t -> v = PacketType_value t.
Proof.
  unfold PacketType_of_value.
  repeat match goal with
         | |- context [String.eqb v ?s] => destruct (String.eqb_spec v s) as [->|?]
         end; intros Heq; inversion Heq; reflexivity.
Qed.

Lemma PacketPriority_of_value_inv v p :
  PacketPriority_of_value v = Some p -> v = PacketPriority_value p.
Proof.
  unfold PacketPriority_of_value.
  repeat match goal with
         | |- context [v =? ?n] => destruct (Z.eqb_spec v n) as [->|?]
         end; intros Heq; inversion Heq; reflexivity.
Qed.

(** X22.  [to_dict] of a packet that [from_dict] returned gives back the
    type, priority and content of the input dictionary and its id when it
    had one; the consent comes back completed: every key the input left
    out carries its default. *)
Theorem to_dict_from_dict_keeps_input lib clk data (h : Heap) p h' :
  from_dict lib clk data h = (Ok p, h') ->
  d_type (to_dict p) = d_type data
  /\ d_priority (to_dict p) = d_priority data
  /\ d_content (to_dict p) = d_content data
  /\ (forall i, d_id data = Some i -> d_id (to_dict p) = Some i)
  /\ d_consent (to_dict p)
     = Some {| cd_public := Some (default false (d_consent data ≫= cd_public));
               cd_targets := Some (default [] (d_consent data ≫= cd_targets));
               cd_scopes := Some (default ["read"%string] (d_consent data ≫= cd_scopes));
               cd_expires_at := d_consent data ≫= cd_expires_at |}.
Proof.
  intros Hfd. destruct (from_dict_inv _ _ _ _ _ _ Hfd) as (t & pr & c & Ht & Hp & Hc).
  rewrite (from_dict_ok _ _ _ _ _ _ _ Ht Hp Hc) in Hfd. inversion Hfd; subst; clear Hfd.
  unfold to_dict. cbn [d_type d_priority d_content d_id d_consent
                       pk_type pk_priority pk_content pk_id pk_consent].
  destruct (d_type data) as [s|]; [|discriminate].
  destruct (d_priority data) as [v|]; [|discriminate].
  simpl in Ht, Hp. apply PacketType_of_value_inv in Ht.
  apply PacketPriority_of_value_inv in Hp. subst s v.
  repeat split; auto.
  - intros i ->. reflexivity.
  - destruct (d_consent data) as [cd|]; reflexivity.
Qed.

(** ** Tampering *)

(** X23.  Once a packet passes [verify_integrity], the same packet with
    another content passes exactly when the new content has the same
    checksum (the first 16 hex digits of its digest): a change of content
    is detected unless the truncated digests collide. *)
Theorem verify_integrity_detects_change lib p (h : Heap) content' :
  verify_integrity lib p h = true ->
  (verify_integrity lib
     {| pk_id := pk_id p; pk_type := pk_type p; pk_priority := pk_priority p;
        pk_content := content'; pk_metadata := pk_metadata p;
        pk_consent := pk_consent p |} h = true
   <-> _calculate_checksum lib content' = _calculate_checksum lib (pk_content p)).
Proof.
  unfold verify_integrity. cbn [pk_metadata pk_content].
  destruct (deref h (pk_metadata p) !! "checksum") as [[| | |expected| |]|]; try discriminate.
  rewrite !String.eqb_eq. intros ->. split; congruence.
Qed.

(** ** The further theorems with a premise, run on concrete inputs *)

(** [receive_packet_failure_frame] on a receive rejected for expired
    consent, in a heap with a second object. *)
Lemma receive_packet_failure_frame_witness :
  exists e self' h',
    receive_packet Sample.lib Scenario.clkB Scenario.nowB
      (DataDict Scenario.session_dict) (new_handler 8000 4000) Cases.two_objects
    = (Raise e, self', h')
    /\ self' = new_handler 8000 4000
    /\ h' !! 2%positive = Cases.two_objects !! 2%positive.
Proof.
  destruct (receive_packet Sample.lib Scenario.clkB Scenario.nowB
              (DataDict Scenario.session_dict) (new_handler 8000 4000)
              Cases.two_objects) as [[[p|e] self'] h'] eqn:Hr;
    [vm_compute in Hr; discriminate|].
  destruct (receive_packet_failure_frame Sample.lib _ _ _ _ _ e self' h' Hr)
    as [Hself Hframe].
  exists e, self', h'. split; [reflexivity|]. split; [exact Hself|].
  apply Hframe.
  - vm_compute. eauto.
  - intros d Hd. inversion Hd; subst. discriminate.
Defined.

(** [from_dict_metadata_object] on the caller's dictionary of the
    scenario: the packet holds the caller's object. *)
Lemma from_dict_metadata_object_witness :
  exists p h',
    from_dict Sample.lib Scenario.clkA Scenario.session_dict Scenario.heap0 = (Ok p, h')
    /\ pk_metadata p = 1%positive
    /\ deref h' (pk_metadata p) !! "source" = deref Scenario.heap0 (pk_metadata p) !! "source".
Proof.
  destruct (from_dict Sample.lib Scenario.clkA Scenario.session_dict Scenario.heap0)
    as [[p|e] h'] eqn:Hfd; [|vm_compute in Hfd; discriminate].
  destruct (from_dict_metadata_object Sample.lib Scenario.clkA
              Scenario.session_dict Scenario.heap0 p h' Hfd)
    as (Hsame & _ & Hkeys & _).
  exists p, h'. split; [reflexivity|]. split.
  - apply Hsame; [reflexivity|].
    intros Hempty. apply (f_equal (fun m : gmap string json => m !! "source")) in Hempty.
    vm_compute in Hempty. discriminate.
  - apply Hkeys; discriminate.
Defined.

(** [receive_packet_to_dict] on a live packet. *)
Lemma receive_packet_to_dict_witness :
  deref Scenario.heap0 (pk_metadata Cases.live_packet) <> ∅
  /\ is_expired Sample.lib Scenario.nowA Cases.live_packet = false
  /\ (receive_packet Sample.lib Scenario.clkA Scenario.nowA
        (DataDict (to_dict Cases.live_packet)) (new_handler 8000 4000) Scenario.heap0).1.1
     = Ok Cases.live_packet.
Proof.
  assert (Hlive : deref Scenario.heap0 (pk_metadata Cases.live_packet) <> ∅).
  { intros Hempty. apply (f_equal (fun m : gmap string json => m !! "source")) in Hempty.
    vm_compute in Hempty. discriminate. }
  assert (Hnot : is_expired Sample.lib Scenario.nowA Cases.live_packet = false)
    by reflexivity.
  split; [exact Hlive|]. split; [exact Hnot|].
  now rewrite (receive_packet_to_dict Sample.lib Scenario.clkA Scenario.nowA
                 (new_handler 8000 4000) Cases.live_packet Scenario.heap0 Hlive Hnot).
Defined.

(** [consent_only_lapses] between the two instants of the scenario. *)
Lemma consent_only_lapses_witness :
  Scenario.nowA <= Scenario.nowB
  /\ can_share_with Sample.lib Scenario.nowA Cases.expiring_packet "anyone" None = true
  /\ can_share_with Sample.lib Scenario.nowB Cases.expiring_packet "anyone" None = false
  /\ (can_share_with Sample.lib Scenario.nowB Cases.expiring_packet "anyone" None = true ->
      can_share_with Sample.lib Scenario.nowA Cases.expiring_packet "anyone" None = true).
Proof.
  assert (Hle : Scenario.nowA <= Scenario.nowB) by (vm_compute; discriminate).
  split; [exact Hle|]. split; [vm_compute; reflexivity|]. split; [vm_compute; reflexivity|].
  exact (proj2 (consent_only_lapses Sample.lib Scenario.nowA Scenario.nowB
                  Cases.expiring_packet "anyone" None Hle)).
Defined.

(** [decompress_packet_recovers_original] on the compressed packet of
    [create_packet_compresses_witness]. *)
Lemma decompress_packet_recovers_original_witness :
  exists q h',
    create_packet Sample.lib (new_handler 10 2) Scenario.clkA Scenario.clkB
                  CONTEXT (JDict Scenario.payload) None None ∅ = (Ok q, h')
    /\ decompress_packet q (Some Cases.lookup) = Ok (JDict Scenario.payload).
Proof.
  assert (Hlow : compression_threshold (new_handler 10 2)
                 < _estimate_tokens Sample.lib (JDict Scenario.payload))
    by (vm_compute; reflexivity).
  assert (Hhigh : _estimate_tokens Sample.lib (JDict Scenario.payload)
                  <= max_packet_size (new_handler 10 2))
    by (vm_compute; discriminate).
  destruct (decompress_packet_recovers_original Sample.lib (new_handler 10 2)
              Scenario.clkA Scenario.clkB CONTEXT Scenario.payload None None ∅
              Cases.lookup Hlow Hhigh eq_refl)
    as (q & h' & placeholder & Hcreate & _ & _ & Hback & _).
  exists q, h'. auto.
Defined.

(** [reconstruct_context_reserve_margin] with a budget of 50 on the store
    of [Scenario.two_tiers]. *)
Lemma reconstruct_context_reserve_margin_witness :
  50 < 100
  /\ exists ctx,
       reconstruct_context "t"
         (w_handler (run Sample.lib 8000 4000 ∅ Scenario.two_tiers))
         (w_heap (run Sample.lib 8000 4000 ∅ Scenario.two_tiers)) 50 false = Ok ctx
       /\ (List.length (layers ctx) <= 1)%nat.
Proof.
  assert (Hsmall : 50 < 100) by reflexivity.
  split; [exact Hsmall|].
  destruct (reconstruct_context_reserve_margin Sample.lib 8000 4000 ∅
              Scenario.two_tiers "t" 50 false Hsmall)
    as (ctx & Hctx & _ & Hone).
  exists ctx. split; [exact Hctx|]. now apply Hone.
Defined.

(** [receive_packet_accepted] on the first receive of the scenario. *)
Lemma receive_packet_accepted_witness :
  exists p self' h',
    receive_packet Sample.lib Scenario.clkA Scenario.nowA
      (DataDict Scenario.session_dict) (new_handler 8000 4000) Scenario.heap0
    = (Ok p, self', h')
    /\ last (incoming_buffer self') = Some p
    /\ session_memory self' = [p].
Proof.
  destruct (receive_packet Sample.lib Scenario.clkA Scenario.nowA
              (DataDict Scenario.session_dict) (new_handler 8000 4000)
              Scenario.heap0) as [[[p|e] self'] h'] eqn:Hr;
    [|vm_compute in Hr; discriminate].
  destruct (receive_packet_accepted Sample.lib _ _ _ _ _ p self' h' Hr)
    as (_ & _ & Hlast & _ & _ & Hses & _).
  exists p, self', h'. split; [reflexivity|]. split; [exact Hlast|].
  rewrite Hses. vm_compute in Hr. inversion Hr; subst. reflexivity.
Defined.

(** [create_packet_default_consent_is_private] on a small packet. *)
Lemma create_packet_default_consent_is_private_witness :
  exists p,
    (create_packet Sample.lib (new_handler 8000 4000) Scenario.clkA Scenario.clkB
                   CONTEXT (JDict Scenario.payload) None None ∅).1 = Ok p
    /\ can_share_with Sample.lib Scenario.nowA p "Claude" (Some "read"%string) = false.
Proof.
  destruct (create_packet Sample.lib (new_handler 8000 4000) Scenario.clkA Scenario.clkB
              CONTEXT (JDict Scenario.payload) None None ∅).1 as [p|e] eqn:Hc;
    [|vm_compute in Hc; discriminate].
  exists p. split; [reflexivity|].
  exact (proj2 (create_packet_default_consent_is_private Sample.lib _ _ _ _ _ _ _ p
                  Scenario.nowA "Claude" (Some "read"%string) Hc)).
Defined.

(** [generate_id_injective] on two readings that give the same id. *)
Lemma generate_id_injective_witness :
  _generate_id Sample.lib Scenario.clkA
  = _generate_id Sample.lib (mkClock (time_ns Scenario.clkA) "later")
  /\ time_ns Scenario.clkA = time_ns (mkClock (time_ns Scenario.clkA) "later").
Proof.
  assert (Hsame : _generate_id Sample.lib Scenario.clkA
                  = _generate_id Sample.lib (mkClock (time_ns Scenario.clkA) "later"))
    by reflexivity.
  split; [exact Hsame|].
  exact (generate_id_injective Sample.lib Scenario.clkA
           (mkClock (time_ns Scenario.clkA) "later") Hsame).
Defined.

(** [to_dict_from_dict_keeps_input] on the dictionary of the scenario. *)
Lemma to_dict_from_dict_keeps_input_witness :
  exists p h',
    from_dict Sample.lib Scenario.clkA Scenario.session_dict Scenario.heap0 = (Ok p, h')
    /\ d_type (to_dict p) = Some "session"%string
    /\ d_id (to_dict p) = Some "cp_1"%string.
Proof.
  destruct (from_dict Sample.lib Scenario.clkA Scenario.session_dict Scenario.heap0)
    as [[p|e] h'] eqn:Hfd; [|vm_compute in Hfd; discriminate].
  destruct (to_dict_from_dict_keeps_input Sample.lib Scenario.clkA
              Scenario.session_dict Scenario.heap0 p h' Hfd)
    as (Hty & _ & _ & Hid & _).
  exists p, h'. split; [reflexivity|]. split; [exact Hty|]. now apply Hid.
Defined.

(** [verify_integrity_detects_change] on the packet the scenario stores:
    another content is refused. *)
Lemma verify_integrity_detects_change_witness :
  exists p h',
    from_dict Sample.lib Scenario.clkA Scenario.session_dict Scenario.heap0 = (Ok p, h')
    /\ verify_integrity Sample.lib p h' = true
    /\ (verify_integrity Sample.lib
          {| pk_id := pk_id p; pk_type := pk_type p; pk_priority := pk_priority p;
             pk_content := JDict [("note"%string, JStr "forged")];
             pk_metadata := pk_metadata p; pk_consent := pk_consent p |} h' = true
        <-> _calculate_checksum Sample.lib (JDict [("note"%string, JStr "forged")])
            = _calculate_checksum Sample.lib (pk_content p)).
Proof.
  destruct (from_dict Sample.lib Scenario.clkA Scenario.session_dict Scenario.heap0)
    as [[p|e] h'] eqn:Hfd; [|vm_compute in Hfd; discriminate].
  assert (Hver : verify_integrity Sample.lib p h' = true)
    by (vm_compute in Hfd; inversion Hfd; subst; vm_compute; reflexivity).
  exists p, h'. split; [reflexivity|]. split; [exact Hver|].
  exact (verify_integrity_detects_change Sample.lib p h'
           (JDict [("note"%string, JStr "forged")]) Hver).
Defined.
